(** * Voice proxy WebSocket handler: a shallow embedding

    Model of [backend/src/services/websocket_handler.py]
    (class [VoiceProxyHandler]).  JSON documents are an inductive type,
    Python's dynamic operations on them ([dict.get], subscripting, [in],
    [del], truthiness) are functions into an exception monad, and the
    I/O performed by the handler is recorded as a trace of events. *)

From Stdlib Require Import String Ascii List ZArith Bool Lia Permutation OrderedTypeEx.
From Stdlib Require Import DecimalString.
Import ListNotations.
Local Open Scope string_scope.
Set Warnings "-register-all".

(** ** Python values and exceptions *)

(** Values produced by [json.loads].  A Python [dict] keeps its keys in
    insertion order, hence the association list.  Floats are kept as
    their textual representation. *)
Inductive json : Type :=
| JNull
| JBool (b : bool)
| JInt (z : Z)
| JFloat (repr : string)
| JStr (s : string)
| JArr (items : list json)
| JObj (fields : list (string * json)).

(** The exception classes the handler can meet. *)
Inductive exn : Type :=
| JSONDecodeError
| UnicodeDecodeError
| KeyError
| AttributeError
| TypeError
| TimeoutError
| InvalidStatusCode (status : Z)
| ConnectionClosed
| WebSocketException
| OtherException (msg : string).

Inductive result (A : Type) : Type :=
| Ok (a : A)
| Raise (e : exn).
Arguments Ok {A} a.
Arguments Raise {A} e.

Definition bind {A B : Type} (r : result A) (k : A -> result B) : result B :=
  match r with
  | Ok a => k a
  | Raise e => Raise e
  end.

Declare Scope py_scope.
Delimit Scope py_scope with py.
Notation "x <- c ;; k" := (bind c (fun x => k))
  (at level 61, c at next level, right associativity) : py_scope.
Local Open Scope py_scope.

Module Py.

(** [bool(v)] *)
Definition truthy (v : json) : bool :=
  match v with
  | JNull => false
  | JBool b => b
  | JInt z => negb (Z.eqb z 0)
  | JFloat r => negb (orb (String.eqb r "0.0") (String.eqb r "-0.0"))
  | JStr s => negb (String.eqb s "")
  | JArr l => match l with [] => false | _ => true end
  | JObj l => match l with [] => false | _ => true end
  end.

(** [v == s] for a string literal [s] *)
Definition eq_str (v : json) (s : string) : bool :=
  match v with
  | JStr t => String.eqb t s
  | _ => false
  end.

Fixpoint assoc (k : string) (l : list (string * json)) : option json :=
  match l with
  | [] => None
  | (k', v) :: l' => if String.eqb k k' then Some v else assoc k l'
  end.

Fixpoint remove (k : string) (l : list (string * json)) : list (string * json) :=
  match l with
  | [] => []
  | (k', v) :: l' => if String.eqb k k' then remove k l' else (k', v) :: remove k l'
  end.

(** [v.get(k, default)]: only a dict has the method. *)
Definition get (v : json) (k : string) (default : json) : result json :=
  match v with
  | JObj l => Ok (match assoc k l with Some x => x | None => default end)
  | _ => Raise AttributeError
  end.

(** [v[k]] with a string key. *)
Definition getitem (v : json) (k : string) : result json :=
  match v with
  | JObj l => match assoc k l with Some x => Ok x | None => Raise KeyError end
  | _ => Raise TypeError
  end.

Fixpoint is_substring (s t : string) : bool :=
  orb (String.prefix s t)
      (match t with
       | EmptyString => false
       | String _ t' => is_substring s t'
       end).

(** [k in v] with a string [k]: key membership in a dict, element
    membership in a list, substring test on a string. *)
Definition contains (k : string) (v : json) : result bool :=
  match v with
  | JObj l => Ok (match assoc k l with Some _ => true | None => false end)
  | JArr l => Ok (existsb (fun x => eq_str x k) l)
  | JStr t => Ok (is_substring k t)
  | _ => Raise TypeError
  end.

(** [del v[k]] with a string key. *)
Definition delitem (v : json) (k : string) : result json :=
  match v with
  | JObj l => match assoc k l with
              | Some _ => Ok (JObj (remove k l))
              | None => Raise KeyError
              end
  | _ => Raise TypeError
  end.

(** [v[k] = x] on a dict: an existing key keeps its position. *)
Fixpoint update (k : string) (x : json) (l : list (string * json))
  : list (string * json) :=
  match l with
  | [] => [(k, x)]
  | (k', v) :: l' =>
      if String.eqb k k' then (k', x) :: l' else (k', v) :: update k x l'
  end.

Definition setitem (v : json) (k : string) (x : json) : result json :=
  match v with
  | JObj l => Ok (JObj (update k x l))
  | _ => Raise TypeError
  end.

End Py.

(** ** Frames

    A frame pairs the bytes received with what [json.loads] does on
    them: a parsed value, [json.JSONDecodeError], or (bytes that are not
    valid text) [UnicodeDecodeError]. *)
Record frame : Type := mkFrame {
  raw : string;
  loads : result json
}.

Definition text (s : string) (v : json) : frame := mkFrame s (Ok v).
Definition garbage (s : string) : frame := mkFrame s (Raise JSONDecodeError).

(** Message types *)
Definition SESSION_UPDATE_TYPE : string := "session.update".
Definition PROXY_CONNECTED_TYPE : string := "proxy.connected".
Definition ERROR_TYPE : string := "error".

(** ** Agent identification: [_get_agent_id_from_client] *)

Definition timeout_seconds : Z := 10.

(** What [client_ws.receive] does for the first frame: it delivers a
    frame (or [None]) after [delay] time units, never returns, or
    raises. *)
Inductive receive_behaviour : Type :=
| Delivers (delay : Z) (msg : option frame)
| Silent
| ReceiveFails (e : exn).

(** [asyncio.wait_for(receive, timeout)]: the frame is handed over
    when it comes within the bound, [TimeoutError] is raised otherwise. *)
Definition wait_for (r : receive_behaviour) (timeout : Z)
  : result (option frame) :=
  match r with
  | Delivers d m => if Z.leb d timeout then Ok m else Raise TimeoutError
  | Silent => Raise TimeoutError
  | ReceiveFails e => Raise e
  end.

(** The inner [try] block: parse the frame and pick the identifier. *)
Definition extract_agent_id (first_message : frame) : result (option json) :=
  msg <- loads first_message ;;
  ty <- Py.get msg "type" JNull ;;
  if Py.eq_str ty "session.update" then
    session <- Py.get msg "session" (JObj []) ;;
    agent_id <- Py.get session "agent_id" JNull ;;
    if Py.truthy agent_id then Ok (Some agent_id) else Ok None
  else Ok None.

(** The whole method.  The result distinguishes a returned value from an
    exception leaving the method; every [except] clause of the source
    falls through to the final [return None]. *)
Definition _get_agent_id_from_client (client : receive_behaviour)
  : result (option json) :=
  match wait_for client timeout_seconds with
  | Ok (Some first_message) =>
      if negb (String.eqb (raw first_message) "") then
        match extract_agent_id first_message with
        | Ok (Some agent_id) => Ok (Some agent_id)
        | Ok None => Ok None
        | Raise JSONDecodeError => Ok None
        | Raise _ => Ok None
        end
      else Ok None
  | Ok None => Ok None
  | Raise TimeoutError => Ok None
  | Raise _ => Ok None
  end.

(** The shape the identification step looks for: a dict whose ["type"]
    is ["session.update"] and whose ["session"] dict has ["agent_id"]
    bound to [a]. *)
Definition carries_agent_id (msg : json) (a : json) : Prop :=
  exists fields sess,
    msg = JObj fields /\
    Py.assoc "type" fields = Some (JStr "session.update") /\
    Py.assoc "session" fields = Some (JObj sess) /\
    Py.assoc "agent_id" sess = Some a.

(** ** Client to upstream: [_forward_client_to_azure] *)

(** What is handed to a [send]: the bytes received, untouched, or the
    output of [json.dumps] on a value. *)
Inductive payload : Type :=
| Verbatim (bytes : string)
| Dumps (v : json).

(** The body of the inner [try]: the message to forward, as rebound (or
    not) by the stripping code. *)
Definition strip_agent_id_body (message : frame) : result payload :=
  msg_data <- loads message ;;
  ty <- Py.get msg_data "type" JNull ;;
  if Py.eq_str ty "session.update" then
    has_session <- Py.contains "session" msg_data ;;
    if has_session then
      session <- Py.getitem msg_data "session" ;;
      has_agent_id <- Py.contains "agent_id" session ;;
      if has_agent_id then
        session' <- Py.delitem session "agent_id" ;;
        msg_data' <- Py.setitem msg_data "session" session' ;;
        Ok (Dumps msg_data')
      else Ok (Verbatim (raw message))
    else Ok (Verbatim (raw message))
  else Ok (Verbatim (raw message)).

(** The inner [try] with its [except (json.JSONDecodeError, KeyError):
    pass]; any other exception leaves the block. *)
Definition strip_agent_id (message : frame) : result payload :=
  match strip_agent_id_body message with
  | Ok p => Ok p
  | Raise JSONDecodeError => Ok (Verbatim (raw message))
  | Raise KeyError => Ok (Verbatim (raw message))
  | Raise e => Raise e
  end.

(** One turn of the [while True] loop as seen from outside: what
    [client_ws.receive] gives and whether [azure_ws.send] succeeds. *)
Record client_turn : Type := mkClientTurn {
  received : result (option frame);
  upstream_send : result unit
}.

(** The loop: the payloads passed to [azure_ws.send], in order.  The
    loop ends on [None], on any exception (outer [except Exception]) or
    when the turns run out (the task is cancelled). *)
Fixpoint _forward_client_to_azure (turns : list client_turn) : list payload :=
  match turns with
  | [] => []
  | t :: rest =>
      match received t with
      | Raise _ => []
      | Ok None => []
      | Ok (Some message) =>
          match strip_agent_id message with
          | Raise _ => []
          | Ok p =>
              match upstream_send t with
              | Ok _ => p :: _forward_client_to_azure rest
              | Raise _ => [p]
              end
          end
      end
  end.

(** ** Upstream to client: [_forward_azure_to_client] *)

(** Insertion of a field in key order, for [sort_keys=True]. *)
Fixpoint insert_field (kv : string * json) (l : list (string * json))
  : list (string * json) :=
  match l with
  | [] => [kv]
  | kv' :: l' =>
      if String.leb (fst kv) (fst kv') then kv :: l
      else kv' :: insert_field kv l'
  end.

Definition sort_fields (l : list (string * json)) : list (string * json) :=
  fold_right insert_field [] l.

(** The value whose plain serialization is what [sort_keys=True]
    prints: every dict, at every depth, listed in key order. *)
Fixpoint sort_keys (v : json) : json :=
  match v with
  | JArr items => JArr (map sort_keys items)
  | JObj fields =>
      JObj (sort_fields (map (fun kv => (fst kv, sort_keys (snd kv))) fields))
  | _ => v
  end.

(** [any(keyword in msg_type for keyword in [...])], left to right and
    stopping at the first hit. *)
Fixpoint any_keyword (keywords : list string) (msg_type : json) : result bool :=
  match keywords with
  | [] => Ok false
  | k :: rest =>
      hit <- Py.contains k msg_type ;;
      if hit then Ok true else any_keyword rest msg_type
  end.

Definition WEBRTC_KEYWORDS : list string := ["session"; "avatar"; "sdp"; "ice"].

(** Outcome of the deduplication block for one frame. *)
Inductive verdict : Type :=
| Forwarded
| Suppressed.

Section Dedup.

(** [json.dumps] and the built-in [hash] on strings. *)
Variable json_dumps : json -> string.
Variable py_hash : string -> Z.

Definition session_hash (session : json) : Z :=
  py_hash (json_dumps (sort_keys session)).

(** The body of the inner [try]: the verdict and the new value of
    [last_session_updated_hash]. *)
Definition dedup_body (last : option Z) (message : frame)
  : result (verdict * option Z) :=
  msg_data <- loads message ;;
  msg_type <- Py.get msg_data "type" (JStr "") ;;
  r <- (if Py.eq_str msg_type "session.updated" then
          session <- Py.get msg_data "session" (JObj []) ;;
          let h := session_hash session in
          if (match last with Some h' => Z.eqb h h' | None => false end)
          then Ok (Suppressed, last)
          else
            session2 <- Py.get msg_data "session" (JObj []) ;;
            _ <- Py.get session2 "avatar" (JObj []) ;;
            Ok (Forwarded, Some h)
        else Ok (Forwarded, last)) ;;
  match fst r with
  | Suppressed => Ok r
  | Forwarded =>
      _ <- any_keyword WEBRTC_KEYWORDS msg_type ;;
      Ok r
  end.

(** The inner [try] with its [except json.JSONDecodeError]. *)
Definition dedup (last : option Z) (message : frame)
  : result (verdict * option Z) :=
  match dedup_body last message with
  | Ok r => Ok r
  | Raise JSONDecodeError => Ok (Forwarded, last)
  | Raise e => Raise e
  end.

(** One turn of [async for message in azure_ws]: the frame yielded
    (or the exception raised by the iterator) and the outcome of
    [client_ws.send]. *)
Record upstream_turn : Type := mkUpstreamTurn {
  yielded : result frame;
  client_send : result unit
}.

(** The loop: the frames passed to [client_ws.send], in order. *)
Fixpoint forward_from (last : option Z) (turns : list upstream_turn)
  : list payload :=
  match turns with
  | [] => []
  | t :: rest =>
      match yielded t with
      | Raise _ => []
      | Ok message =>
          match dedup last message with
          | Raise _ => []
          | Ok (Suppressed, last') => forward_from last' rest
          | Ok (Forwarded, last') =>
              match client_send t with
              | Ok _ => Verbatim (raw message) :: forward_from last' rest
              | Raise _ => [Verbatim (raw message)]
              end
          end
      end
  end.

Definition _forward_azure_to_client (turns : list upstream_turn) : list payload :=
  forward_from None turns.

End Dedup.

(** ** Process configuration

    The [config] mapping of [src.config]: every key is defined and
    bound to a string, the empty string when the setting is not
    provided. *)
Record config : Type := mkConfig {
  cfg_agent_id : string;
  cfg_model_deployment_name : string;
  cfg_azure_ai_resource_name : string;
  cfg_azure_ai_project_name : string;
  cfg_project_endpoint : string;
  cfg_azure_openai_api_key : string;
  cfg_azure_voice_name : string;
  cfg_azure_voice_type : string
}.

(** Truth value of a configuration entry. *)
Definition configured (s : string) : bool := negb (String.eqb s "").

(** Truth value of an [Optional[...]] holding a JSON value. *)
Definition present (v : option json) : bool :=
  match v with
  | Some c => Py.truthy c
  | None => false
  end.

(** ** Session configuration: [_build_session_config], [_send_initial_config] *)

Definition DEFAULT_MODALITIES : json := JArr [JStr "text"; JStr "audio"].
Definition DEFAULT_TURN_DETECTION_TYPE : string := "azure_semantic_vad".
Definition DEFAULT_NOISE_REDUCTION_TYPE : string := "azure_deep_noise_suppression".
Definition DEFAULT_ECHO_CANCELLATION_TYPE : string := "server_echo_cancellation".
Definition DEFAULT_AVATAR_CHARACTER : string := "lisa".
Definition DEFAULT_AVATAR_STYLE : string := "casual-sitting".

Definition default_session (cfg : config) : list (string * json) :=
  [ ("modalities", DEFAULT_MODALITIES);
    ("turn_detection", JObj [("type", JStr DEFAULT_TURN_DETECTION_TYPE)]);
    ("input_audio_noise_reduction", JObj [("type", JStr DEFAULT_NOISE_REDUCTION_TYPE)]);
    ("input_audio_echo_cancellation", JObj [("type", JStr DEFAULT_ECHO_CANCELLATION_TYPE)]);
    ("avatar", JObj [("character", JStr DEFAULT_AVATAR_CHARACTER);
                     ("style", JStr DEFAULT_AVATAR_STYLE)]);
    ("voice", JObj [("name", JStr (cfg_azure_voice_name cfg));
                    ("type", JStr (cfg_azure_voice_type cfg))]) ].

Definition _build_session_config (cfg : config) : json :=
  JObj [ ("type", JStr SESSION_UPDATE_TYPE);
         ("session", JObj (default_session cfg)) ].

(** The four assignments on [config_message["session"]]; the message
    with its session replaced stands for the in-place update. *)
Definition _add_local_agent_config (cfg : config) (config_message agent_config : json)
  : result json :=
  session <- Py.getitem config_message "session" ;;
  model <- Py.get agent_config "model" (JStr (cfg_model_deployment_name cfg)) ;;
  s1 <- Py.setitem session "model" model ;;
  instructions <- Py.getitem agent_config "instructions" ;;
  s2 <- Py.setitem s1 "instructions" instructions ;;
  temperature <- Py.getitem agent_config "temperature" ;;
  s3 <- Py.setitem s2 "temperature" temperature ;;
  max_tokens <- Py.getitem agent_config "max_tokens" ;;
  s4 <- Py.setitem s3 "max_response_output_tokens" max_tokens ;;
  Py.setitem config_message "session" s4.

(** The message [_send_initial_config] serializes and sends. *)
Definition initial_config (cfg : config) (agent_config : option json)
  : result json :=
  let config_message := _build_session_config cfg in
  match agent_config with
  | Some c =>
      if Py.truthy c then
        remote <- Py.get c "is_azure_agent" JNull ;;
        if negb (Py.truthy remote)
        then _add_local_agent_config cfg config_message c
        else Ok config_message
      else Ok config_message
  | None => Ok config_message
  end.

(** ** Upstream URL: [_build_azure_url] *)

Definition AZURE_VOICE_API_VERSION : string := "2025-05-01-preview".
Definition AZURE_COGNITIVE_SERVICES_DOMAIN : string := "cognitiveservices.azure.com".
Definition VOICE_AGENT_ENDPOINT : string := "voice-agent/realtime".

(** [client_request_id] is the text of the value [uuid.uuid4()] returns
    for this call. *)
Definition _build_base_azure_url (cfg : config) (client_request_id : string) : string :=
  "wss://" ++ cfg_azure_ai_resource_name cfg ++ "."
    ++ AZURE_COGNITIVE_SERVICES_DOMAIN ++ "/"
    ++ VOICE_AGENT_ENDPOINT ++ "?api-version=" ++ AZURE_VOICE_API_VERSION
    ++ "&x-ms-client-request-id=" ++ client_request_id.

(** [str(v)] as an f-string renders it: a string as itself, [None] as
    its name; [py_repr] prints the other values. *)
Definition py_str (py_repr : json -> string) (v : json) : string :=
  match v with
  | JStr s => s
  | JNull => "None"
  | _ => py_repr v
  end.

Definition fmt_opt (py_repr : json -> string) (v : option json) : string :=
  match v with
  | Some x => py_str py_repr x
  | None => "None"
  end.

Definition _build_agent_specific_url (py_repr : json -> string) (cfg : config)
    (base_url : string) (agent_id : option json) (agent_config : json)
  : result string :=
  let project_name := cfg_azure_ai_project_name cfg in
  remote <- Py.get agent_config "is_azure_agent" JNull ;;
  if Py.truthy remote then
    let project_endpoint := cfg_project_endpoint cfg in
    let url := base_url ++ "&agent-id=" ++ fmt_opt py_repr agent_id
                 ++ "&agent-project-name=" ++ project_name in
    if configured project_endpoint
    then Ok (url ++ "&connection-string=" ++ project_endpoint)
    else Ok url
  else
    model_name <- Py.get agent_config "model" (JStr (cfg_model_deployment_name cfg)) ;;
    Ok (base_url ++ "&model=" ++ py_str py_repr model_name).

Definition _build_azure_url (py_repr : json -> string) (cfg : config)
    (client_request_id : string)
    (agent_id : option json) (agent_config : option json) : result string :=
  let base_url := _build_base_azure_url cfg client_request_id in
  match agent_config with
  | Some c =>
      if Py.truthy c then _build_agent_specific_url py_repr cfg base_url agent_id c
      else if configured (cfg_agent_id cfg) then
        Ok (base_url ++ "&agent-id=" ++ cfg_agent_id cfg)
      else Ok (base_url ++ "&model=" ++ cfg_model_deployment_name cfg)
  | None =>
      if configured (cfg_agent_id cfg) then
        Ok (base_url ++ "&agent-id=" ++ cfg_agent_id cfg)
      else Ok (base_url ++ "&model=" ++ cfg_model_deployment_name cfg)
  end.

(** ** The handler's environment and effects *)

(** Transport headers: a bearer token or the static key. *)
Inductive headers : Type :=
| Bearer (token : string)
| ApiKey (key : string).

(** Everything outside the handler that a run depends on. *)
Record world : Type := mkWorld {
  w_config : config;
  (** [uuid.uuid4()], [str] on compound values, [str] on exceptions,
      [json.dumps] and [hash] *)
  w_uuid4 : string;
  w_repr : json -> string;
  w_str_exn : exn -> string;
  w_dumps : json -> string;
  w_hash : string -> Z;
  (** the agent manager *)
  w_get_agent : json -> result (option json);
  w_create_or_get_agent : result unit;
  (** the credential: [get_token(scope).token] *)
  w_get_token : string -> result string;
  (** the upstream service: [websockets.connect], the [send] of the
      initial configuration, [close] *)
  w_connect : string -> headers -> result unit;
  w_send_config : result unit;
  w_close : result unit;
  (** the client: its first frame, then the turns of the two loops *)
  w_first : receive_behaviour;
  w_client_turns : list client_turn;
  w_upstream_turns : list (upstream_turn)
}.

(** Calls made by the handler, in order.  Of the log only the
    [logger.error] lines are kept, with their format string. *)
Inductive event : Type :=
| LogError (format : string)
| CreateOrGetAgent
| GetToken (scope : string)
| Connect (url : string) (h : headers)
| SendConfig (message : json)
| UpstreamClose
| ClientSend (message : json)
| ToUpstream (p : payload)
| ToClient (p : payload).

(** The upstream connection of this run. *)
Inductive link : Type :=
| NotOpened
| Open
| Closed.

Record state : Type := mkState {
  trace : list event;
  upstream : link
}.

Definition initial_state : state := mkState [] NotOpened.

Definition M (A : Type) : Type := state -> result A * state.

Definition ret {A : Type} (a : A) : M A := fun s => (Ok a, s).

Definition bindM {A B : Type} (m : M A) (k : A -> M B) : M B :=
  fun s =>
    match m s with
    | (Ok a, s') => k a s'
    | (Raise e, s') => (Raise e, s')
    end.

Definition lift {A : Type} (r : result A) : M A := fun s => (r, s).

Definition emit (e : event) : M unit :=
  fun s => (Ok tt, mkState (trace s ++ [e]) (upstream s)).

Definition set_link (l : link) : M unit :=
  fun s => (Ok tt, mkState (trace s) l).

(** [try: body / except Exception as e: handler e] *)
Definition try_catch {A : Type} (body : M A) (handler : exn -> M A) : M A :=
  fun s =>
    match body s with
    | (Ok a, s') => (Ok a, s')
    | (Raise e, s') => handler e s'
    end.

(** Run [body] and hand its outcome over as a value. *)
Definition attempt {A : Type} (body : M A) : M (result A) :=
  fun s => let (r, s') := body s in (Ok r, s').

Declare Scope m_scope.
Delimit Scope m_scope with m.
Notation "x <-- c ;;; k" := (bindM c (fun x => k))
  (at level 61, c at next level, right associativity) : m_scope.
Notation "c ;;; k" := (bindM c (fun _ => k))
  (at level 61, right associativity) : m_scope.
Local Open Scope m_scope.

(** *** Calls on the upstream service *)

Definition get_token (w : world) (scope : string) : M string :=
  emit (GetToken scope) ;;; lift (w_get_token w scope).

Definition ws_connect (w : world) (url : string) (h : headers) : M unit :=
  emit (Connect url h) ;;;
  lift (w_connect w url h) ;;;
  set_link Open.

(** [azure_ws.send] of the initial configuration.  The link changes
    only through the calls the handler makes: a successful
    [websockets.connect] opens it, [close] closes it. *)
Definition ws_send_config (w : world) (message : json) : M unit :=
  emit (SendConfig message) ;;;
  lift (w_send_config w).

Definition ws_close (w : world) : M unit :=
  emit UpstreamClose ;;;
  set_link Closed ;;;
  lift (w_close w).

(** *** [_send_message] and [_send_error]: a failing send is swallowed. *)

Definition _send_message (message : json) : M unit :=
  emit (ClientSend message).

Definition error_frame (error_message : string) : json :=
  JObj [("type", JStr "error");
        ("error", JObj [("message", JStr error_message)])].

Definition _send_error (error_message : string) : M unit :=
  _send_message (error_frame error_message).

(** *** Credential selection (the [if is_azure_agent: ... else: ...] of
    [_connect_to_azure]); [None] stands for its [return None]. *)

Definition PRIMARY_SCOPE : string := "https://ai.azure.com/.default".
Definition FALLBACK_SCOPE : string := "https://cognitiveservices.azure.com/.default".

Definition select_headers (w : world) (is_azure_agent : bool) : M (option headers) :=
  let cfg := w_config w in
  if is_azure_agent then
    if negb (configured (cfg_azure_ai_project_name cfg)) then
      emit (LogError "AZURE_AI_PROJECT_NAME is required for Azure AI agents but not configured") ;;;
      ret None
    else
      try_catch
        (token <-- get_token w PRIMARY_SCOPE ;;;
         ret (Some (Bearer token)))
        (fun _ =>
           emit (LogError "Failed to get Azure AD token: %s") ;;;
           try_catch
             (token <-- get_token w FALLBACK_SCOPE ;;;
              ret (Some (Bearer token)))
             (fun _ =>
                emit (LogError "Failed to get Azure AD token with fallback scope: %s") ;;;
                ret None))
  else
    let api_key := cfg_azure_openai_api_key cfg in
    if negb (configured api_key) then
      emit (LogError "AZURE_OPENAI_API_KEY is required for non-agent mode but not configured") ;;;
      ret None
    else ret (Some (ApiKey api_key)).

(** *** [_connect_to_azure] *)

(** [_send_initial_config] *)
Definition _send_initial_config (w : world) (agent_config : option json) : M unit :=
  config_message <-- lift (initial_config (w_config w) agent_config) ;;;
  ws_send_config w config_message.

(** The three [except] clauses.  [azure_ws] tells whether the local
    variable is bound when the exception arrives. *)
Definition connect_failed (w : world) (azure_ws : bool) (e : exn) : M (option unit) :=
  match e with
  | InvalidStatusCode _ =>
      emit (LogError "WebSocket connection failed with status code: %s") ;;;
      emit (LogError "Response headers: %s") ;;;
      ret None
  | ConnectionClosed | WebSocketException =>
      emit (LogError "WebSocket connection failed: %s") ;;;
      ret None
  | _ =>
      emit (LogError "Failed to connect to Azure: %s") ;;;
      emit (LogError "Exception type: %s") ;;;
      (if azure_ws then try_catch (ws_close w) (fun _ => ret tt) else ret tt) ;;;
      ret None
  end.

(** [self.agent_manager.get_agent(agent_id) if agent_id else None] *)
Definition lookup_agent (w : world) (agent_id : option json) : result (option json) :=
  match agent_id with
  | Some a => if Py.truthy a then w_get_agent w a else Ok None
  | None => Ok None
  end.

(** Truth value of
    [agent_config and agent_config.get("is_azure_agent", False)] *)
Definition remote_flag (agent_config : option json) : result bool :=
  match agent_config with
  | Some c =>
      if Py.truthy c then
        flag <- Py.get c "is_azure_agent" (JBool false) ;;
        Ok (Py.truthy flag)
      else Ok false
  | None => Ok false
  end.

(** The [try] body up to the call of [websockets.connect]: the
    configuration check, the agent lookup, the credential and the URL.
    [None] stands for a [return None]. *)
Definition prepare (w : world) (agent_id : option json)
  : M (option (option json * string * headers)) :=
  let cfg := w_config w in
  if negb (configured (cfg_azure_ai_resource_name cfg)) then
    emit (LogError "Missing required configuration: %s") ;;;
    ret None
  else
    agent_config <-- lift (lookup_agent w agent_id) ;;;
    is_azure_agent <-- lift (remote_flag agent_config) ;;;
    credential <-- select_headers w is_azure_agent ;;;
    match credential with
    | None => ret None
    | Some h =>
        azure_url <-- lift (_build_azure_url (w_repr w) cfg (w_uuid4 w)
                              agent_id agent_config) ;;;
        ret (Some (agent_config, azure_url, h))
    end.

Definition _connect_to_azure (w : world) (agent_id : option json) : M (option unit) :=
  try_catch
    (p <-- prepare w agent_id ;;;
     match p with
     | None => ret None
     | Some (agent_config, azure_url, h) =>
         ws_connect w azure_url h ;;;
         try_catch
           (_send_initial_config w agent_config ;;;
            ret (Some tt))
           (connect_failed w true)
     end)
    (connect_failed w false).

(** *** [_handle_message_forwarding]: the sends of the two loops.

    The two tasks share nothing; the trace lists the sends of the
    client-to-upstream loop, then those of the upstream-to-client loop.
    Neither task lets an exception out, so the wait returns normally. *)

Fixpoint emit_all (es : list event) : M unit :=
  match es with
  | [] => ret tt
  | e :: rest => emit e ;;; emit_all rest
  end.

Definition _handle_message_forwarding (w : world) : M unit :=
  emit_all (map ToUpstream (_forward_client_to_azure (w_client_turns w))) ;;;
  emit_all (map ToClient
              (_forward_azure_to_client (w_dumps w) (w_hash w) (w_upstream_turns w))).

(** *** [handle_connection] *)

Definition proxy_connected : json :=
  JObj [("type", JStr "proxy.connected");
        ("message", JStr "Connected to Azure Voice API")].

(** [except Exception as e] of [handle_connection] *)
Definition proxy_error (w : world) (e : exn) : M unit :=
  emit (LogError "Proxy error: %s") ;;;
  _send_error (w_str_exn w e).

(** The statements before the [try]. *)
Definition choose_agent (w : world) : M (option json) :=
  let predefined_agent_id := cfg_agent_id (w_config w) in
  if configured predefined_agent_id then
    emit CreateOrGetAgent ;;;
    lift (w_create_or_get_agent w) ;;;
    ret (Some (JStr predefined_agent_id))
  else lift (_get_agent_id_from_client (w_first w)).

(** The [try] / [except] / [finally] statement: the connection is
    closed in [finally] when [azure_ws] is bound to one. *)
Definition handle_connection (w : world) : M unit :=
  current_agent_id <-- choose_agent w ;;;
  connected <-- attempt (_connect_to_azure w current_agent_id) ;;;
  match connected with
  | Raise e => proxy_error w e
  | Ok None => _send_error "Failed to connect to Azure Voice API"
  | Ok (Some _) =>
      try_catch
        (_send_message proxy_connected ;;;
         _handle_message_forwarding w)
        (proxy_error w) ;;;
      ws_close w
  end.

(** Number of calls of [azure_ws.close]. *)
Definition closes (tr : list event) : nat :=
  length (filter (fun e => match e with UpstreamClose => true | _ => false end) tr).

Definition is_client_send (e : event) : bool :=
  match e with ClientSend _ => true | _ => false end.

Definition is_connect (e : event) : bool :=
  match e with Connect _ _ => true | _ => false end.

Definition is_get_token (e : event) : bool :=
  match e with GetToken _ => true | _ => false end.

(** ** Sample frames *)

(** The double-quote character and a quoted JSON string. *)
Definition dq : string := String (ascii_of_nat 34) EmptyString.
Definition q (s : string) : string := dq ++ s ++ dq.

(** The value [{"type": "session.update", "session": {"agent_id": a}}]. *)
Definition session_update_with (a : json) : json :=
  JObj [("type", JStr "session.update"); ("session", JObj [("agent_id", a)])].

(** The text frame carrying that value for a string identifier. *)
Definition session_update_frame (a : string) : frame :=
  text ("{" ++ q "type" ++ ": " ++ q "session.update" ++ ", " ++ q "session"
          ++ ": {" ++ q "agent_id" ++ ": " ++ q a ++ "}}")
       (session_update_with (JStr a)).

(** What makes the identification step return [a]: the first frame
    comes within the bound, is not empty, parses, has the session-update
    shape with [a] as nested identifier, and [a] is a true value. *)
Definition identified (client : receive_behaviour) (a : json) : Prop :=
  exists d f msg,
    client = Delivers d (Some f) /\ (d <= timeout_seconds)%Z /\
    raw f <> "" /\ loads f = Ok msg /\
    carries_agent_id msg a /\ Py.truthy a = true.

(** The text frame [[1]]: valid JSON that is not an object. *)
Definition array_frame : frame := text "[1]" (JArr [JInt 1]).

(** The text frame [{"type": "session.update", "session": null}]. *)
Definition null_session_frame : frame :=
  text ("{" ++ q "type" ++ ": " ++ q "session.update" ++ ", " ++ q "session"
          ++ ": null}")
       (JObj [("type", JStr "session.update"); ("session", JNull)]).

(** The text frame [{"type": "input_audio_buffer.append"}]. *)
Definition append_frame : frame :=
  text ("{" ++ q "type" ++ ": " ++ q "input_audio_buffer.append" ++ "}")
       (JObj [("type", JStr "input_audio_buffer.append")]).

(** The text frame [{"type": null}]. *)
Definition null_type_frame : frame :=
  text ("{" ++ q "type" ++ ": null}") (JObj [("type", JNull)]).

(** A client turn and an upstream turn in which the frame comes in and
    the send goes through. *)
Definition client_sends (f : frame) : client_turn :=
  mkClientTurn (Ok (Some f)) (Ok tt).
Definition upstream_sends (f : frame) : upstream_turn :=
  mkUpstreamTurn (Ok f) (Ok tt).

(** The session content of an upstream message: its ["session"] entry,
    or the empty dict. *)
Definition session_of (fields : list (string * json)) : json :=
  match Py.assoc "session" fields with
  | Some x => x
  | None => JObj []
  end.

(** ** Sample configurations *)

Definition sample_config : config :=
  mkConfig "" "gpt-4o" "my-resource" "my-project" "https://project.example/api"
           "secret-key" "en-US-Ava:DragonHDLatestNeural" "azure-standard".

(** A local agent: model "m", instructions "i", temperature 0.5,
    max_tokens 100. *)
Definition local_agent : list (string * json) :=
  [("model", JStr "m"); ("instructions", JStr "i");
   ("temperature", JFloat "0.5"); ("max_tokens", JInt 100);
   ("is_azure_agent", JBool false)].

(** A remote agent. *)
Definition remote_agent : list (string * json) :=
  [("is_azure_agent", JBool true); ("instructions", JStr "i")].

(** A non-remote agent configuration without instructions. *)
Definition bare_agent : list (string * json) := [("model", JStr "m")].

(** The agent configuration is there and is not a remote agent. *)
Definition is_local (fields : list (string * json)) : Prop :=
  fields <> [] /\
  match Py.assoc "is_azure_agent" fields with
  | Some flag => Py.truthy flag = false
  | None => True
  end.

(** The agent configuration is there and is a remote agent. *)
Definition is_remote (fields : list (string * json)) : Prop :=
  exists flag, Py.assoc "is_azure_agent" fields = Some flag /\ Py.truthy flag = true.

(** The model of an agent: its ["model"] entry, else the default
    deployment name. *)
Definition model_of (cfg : config) (fields : list (string * json)) : json :=
  match Py.assoc "model" fields with
  | Some x => x
  | None => JStr (cfg_model_deployment_name cfg)
  end.

(** The four fields taken from a local agent. *)
Definition LOCAL_FIELDS : list string :=
  ["model"; "instructions"; "temperature"; "max_response_output_tokens"].

(** The session object of a configuration message. *)
Definition session_fields (message : json) : list (string * json) :=
  match message with
  | JObj fields =>
      match Py.assoc "session" fields with
      | Some (JObj sess) => sess
      | _ => []
      end
  | _ => []
  end.

(** The send of the initial configuration does not fail with one of
    the WebSocket exception classes. *)
Definition send_not_websocket_failure (w : world) : Prop :=
  match w_send_config w with
  | Raise (InvalidStatusCode _) => False
  | Raise ConnectionClosed => False
  | Raise WebSocketException => False
  | _ => True
  end.


(** The events a run added to the trace it started from. *)
Definition added (s s' : state) (es : list event) : Prop :=
  trace s' = (trace s ++ es)%list.

(** A world around [sample_config]: an agent manager that knows the
    agents "local" and "remote", a credential that issues tokens, an
    upstream service that accepts the connection, a silent client. *)
Definition sample_world : world :=
  {| w_config := sample_config;
     w_uuid4 := "6f1c2a34-0000-4000-8000-000000000001";
     w_repr := fun _ => "?";
     w_str_exn := fun _ => "error";
     w_dumps := fun _ => "{}";
     w_hash := fun s => Z.of_nat (String.length s);
     w_get_agent := fun a =>
       if Py.eq_str a "local" then Ok (Some (JObj local_agent))
       else if Py.eq_str a "remote" then Ok (Some (JObj remote_agent))
       else Ok None;
     w_create_or_get_agent := Ok tt;
     w_get_token := fun scope => Ok "token";
     w_connect := fun _ _ => Ok tt;
     w_send_config := Ok tt;
     w_close := Ok tt;
     w_first := Silent;
     w_client_turns := [];
     w_upstream_turns := [] |}.

(** The same world with another configuration. *)
Definition with_config (w : world) (cfg : config) : world :=
  {| w_config := cfg;
     w_uuid4 := w_uuid4 w; w_repr := w_repr w; w_str_exn := w_str_exn w;
     w_dumps := w_dumps w; w_hash := w_hash w;
     w_get_agent := w_get_agent w;
     w_create_or_get_agent := w_create_or_get_agent w;
     w_get_token := w_get_token w;
     w_connect := w_connect w;
     w_send_config := w_send_config w;
     w_close := w_close w;
     w_first := w_first w;
     w_client_turns := w_client_turns w;
     w_upstream_turns := w_upstream_turns w |}.

(** The same world with a credential that answers [tokens]. *)
Definition with_tokens (w : world) (tokens : string -> result string) : world :=
  {| w_config := w_config w;
     w_uuid4 := w_uuid4 w; w_repr := w_repr w; w_str_exn := w_str_exn w;
     w_dumps := w_dumps w; w_hash := w_hash w;
     w_get_agent := w_get_agent w;
     w_create_or_get_agent := w_create_or_get_agent w;
     w_get_token := tokens;
     w_connect := w_connect w;
     w_send_config := w_send_config w;
     w_close := w_close w;
     w_first := w_first w;
     w_client_turns := w_client_turns w;
     w_upstream_turns := w_upstream_turns w |}.

(** The same world with an agent manager whose
    [create_or_get_agent] answers [r]. *)
Definition with_create (w : world) (r : result unit) : world :=
  {| w_config := w_config w;
     w_uuid4 := w_uuid4 w; w_repr := w_repr w; w_str_exn := w_str_exn w;
     w_dumps := w_dumps w; w_hash := w_hash w;
     w_get_agent := w_get_agent w;
     w_create_or_get_agent := r;
     w_get_token := w_get_token w;
     w_connect := w_connect w;
     w_send_config := w_send_config w;
     w_close := w_close w;
     w_first := w_first w;
     w_client_turns := w_client_turns w;
     w_upstream_turns := w_upstream_turns w |}.

(** A credential that fails on the primary scope only, and one that
    fails on both. *)
Definition primary_fails (scope : string) : result string :=
  if String.eqb scope PRIMARY_SCOPE then Raise (OtherException "primary scope refused")
  else Ok "fallback-token".
Definition both_fail (scope : string) : result string :=
  Raise (OtherException "no credential").

(** [sample_config] with a fixed agent identifier, and without the
    static key. *)
Definition fixed_agent_config : config :=
  mkConfig "agent-1" "gpt-4o" "my-resource" "my-project" "https://project.example/api"
           "secret-key" "en-US-Ava:DragonHDLatestNeural" "azure-standard".
Definition keyless_config : config :=
  mkConfig "" "gpt-4o" "my-resource" "my-project" "https://project.example/api"
           "" "en-US-Ava:DragonHDLatestNeural" "azure-standard".

(** The WebSocket exception classes, and the exceptions raised by the
    operations on Python values. *)
Definition is_ws_exception (e : exn) : bool :=
  match e with
  | InvalidStatusCode _ | ConnectionClosed | WebSocketException => true
  | _ => false
  end.

Definition is_py_error (e : exn) : bool :=
  match e with
  | KeyError | AttributeError | TypeError => true
  | _ => false
  end.

(** A deployment with a fixed agent identifier whose agent manager
    fails to set the agent up. *)
Definition failing_setup_world : world :=
  with_create (with_config sample_world fixed_agent_config)
              (Raise (OtherException "agent service unavailable")).

(** Two values with the same content: equal up to the order in which
    the keys of their objects are listed, at any depth. *)
Inductive same_content : json -> json -> Prop :=
| same_refl (v : json) : same_content v v
| same_trans (u v x : json) :
    same_content u v -> same_content v x -> same_content u x
| same_reordered (l l' : list (string * json)) :
    Permutation l l' -> NoDup (map fst l) ->
    same_content (JObj l) (JObj l')
| same_item (pre post : list json) (x y : json) :
    same_content x y ->
    same_content (JArr (pre ++ x :: post)) (JArr (pre ++ y :: post))
| same_field (pre post : list (string * json)) (k : string) (x y : json) :
    same_content x y ->
    same_content (JObj (pre ++ (k, x) :: post)) (JObj (pre ++ (k, y) :: post)).

(** [sample_config] without the project name. *)
Definition projectless_config : config :=
  mkConfig "" "gpt-4o" "my-resource" "" "https://project.example/api"
           "secret-key" "en-US-Ava:DragonHDLatestNeural" "azure-standard".

(** ** More sample inputs *)

(** The text frame
    [{"type": "session.update", "session": {"agent_id": "X", "voice": "v"}}]. *)
Definition update_with_voice_frame : frame :=
  text ("{" ++ q "type" ++ ": " ++ q "session.update" ++ ", " ++ q "session"
          ++ ": {" ++ q "agent_id" ++ ": " ++ q "X" ++ ", " ++ q "voice" ++ ": "
          ++ q "v" ++ "}}")
       (JObj [("type", JStr "session.update");
              ("session", JObj [("agent_id", JStr "X"); ("voice", JStr "v")])]).

(** A client turn that ends the stream, and one whose receive fails. *)
Definition client_closes : client_turn := mkClientTurn (Ok None) (Ok tt).
Definition client_breaks : client_turn :=
  mkClientTurn (Raise (OtherException "connection lost")) (Ok tt).

(** A client turn whose frame comes in and whose send fails. *)
Definition client_send_fails (f : frame) : client_turn :=
  mkClientTurn (Ok (Some f)) (Raise ConnectionClosed).

(** The frames a list of client turns delivers. *)
Fixpoint delivered (turns : list client_turn) : list frame :=
  match turns with
  | [] => []
  | t :: rest =>
      match received t with
      | Ok (Some f) => f :: delivered rest
      | _ => delivered rest
      end
  end.

(** ** Upstream streams *)

(** A serializer and a string hash to run the loop on examples: the
    usual JSON text (strings unescaped) and a polynomial hash. *)
Fixpoint sample_dumps (v : json) : string :=
  match v with
  | JNull => "null"
  | JBool true => "true"
  | JBool false => "false"
  | JInt z => NilZero.string_of_int (Z.to_int z)
  | JFloat r => r
  | JStr s => q s
  | JArr items => "[" ++ String.concat ", " (map sample_dumps items) ++ "]"
  | JObj fields =>
      "{" ++ String.concat ", "
               (map (fun kv => q (fst kv) ++ ": " ++ sample_dumps (snd kv)) fields)
          ++ "}"
  end.

Fixpoint sample_hash_from (acc : Z) (s : string) : Z :=
  match s with
  | EmptyString => acc
  | String c s' =>
      sample_hash_from ((acc * 31 + Z.of_nat (nat_of_ascii c)) mod 2147483647) s'
  end.

Definition sample_hash (s : string) : Z := sample_hash_from 7 s.

(** The upstream text frame
    [{"type": "session.updated", "session": {"voice": v}}]. *)
Definition updated_frame (v : string) : frame :=
  text ("{" ++ q "type" ++ ": " ++ q "session.updated" ++ ", " ++ q "session"
          ++ ": {" ++ q "voice" ++ ": " ++ q v ++ "}}")
       (JObj [("type", JStr "session.updated");
              ("session", JObj [("voice", JStr v)])]).

(** Two upstream session-updated frames with the same session content,
    its keys in two different orders. *)
Definition updated_ab_frame : frame :=
  text ("{" ++ q "type" ++ ": " ++ q "session.updated" ++ ", " ++ q "session"
          ++ ": {" ++ q "a" ++ ": 1, " ++ q "b" ++ ": 2}}")
       (JObj [("type", JStr "session.updated");
              ("session", JObj [("a", JInt 1); ("b", JInt 2)])]).
Definition updated_ba_frame : frame :=
  text ("{" ++ q "session" ++ ": {" ++ q "b" ++ ": 2, " ++ q "a" ++ ": 1}, "
          ++ q "type" ++ ": " ++ q "session.updated" ++ "}")
       (JObj [("session", JObj [("b", JInt 2); ("a", JInt 1)]);
              ("type", JStr "session.updated")]).

(** The upstream text frame [{"type": "response.audio.delta"}]. *)
Definition delta_frame : frame :=
  text ("{" ++ q "type" ++ ": " ++ q "response.audio.delta" ++ "}")
       (JObj [("type", JStr "response.audio.delta")]).

(** The frames a list of upstream turns yields. *)
Fixpoint yielded_frames (turns : list upstream_turn) : list frame :=
  match turns with
  | [] => []
  | t :: rest =>
      match yielded t with
      | Ok f => f :: yielded_frames rest
      | Raise _ => yielded_frames rest
      end
  end.

(** [l] is [l'] with some elements left out. *)
Inductive subseq {A : Type} : list A -> list A -> Prop :=
| subseq_nil : subseq [] []
| subseq_skip (x : A) (l l' : list A) : subseq l l' -> subseq l (x :: l')
| subseq_keep (x : A) (l l' : list A) : subseq l l' -> subseq (x :: l) (x :: l').

(** How the upstream loop reads a frame it can handle:
    [Some (Some session)] for a session-updated message whose session
    content is an object (or missing), [Some None] for a frame that is
    not JSON or an object with another (or no) type string; [None] for
    anything else. *)
Definition upstream_shape (f : frame) : option (option json) :=
  match loads f with
  | Raise JSONDecodeError => Some None
  | Ok (JObj fields) =>
      match Py.assoc "type" fields with
      | Some (JStr t) =>
          if String.eqb t "session.updated" then
            match session_of fields with
            | JObj sess => Some (Some (JObj sess))
            | _ => None
            end
          else Some None
      | None => Some None
      | Some _ => None
      end
  | _ => None
  end.

(** The frames left when each session-updated frame whose hash is the
    one of the session-updated frame kept before it is taken out. *)
Fixpoint deduplicated (h : json -> Z) (last : option Z) (fs : list frame)
  : list frame :=
  match fs with
  | [] => []
  | f :: rest =>
      match upstream_shape f with
      | Some (Some session) =>
          if (match last with Some h' => Z.eqb (h session) h' | None => false end)
          then deduplicated h last rest
          else f :: deduplicated h (Some (h session)) rest
      | _ => f :: deduplicated h last rest
      end
  end.

(** The hashes of the session-updated frames of a list, in order. *)
Fixpoint update_hashes (h : json -> Z) (fs : list frame) : list Z :=
  match fs with
  | [] => []
  | f :: rest =>
      match upstream_shape f with
      | Some (Some session) => h session :: update_hashes h rest
      | _ => update_hashes h rest
      end
  end.

(** No element of the list equals the one before it; [prev] stands
    before the first. *)
Fixpoint no_repeat (prev : option Z) (l : list Z) : Prop :=
  match l with
  | [] => True
  | x :: rest => prev <> Some x /\ no_repeat (Some x) rest
  end.

(** A client frame the stripping code can handle: not JSON, or an
    object that is not a session update, or has no session entry, or
    has an object as session entry. *)
Definition client_shape_ok (f : frame) : Prop :=
  loads f = Raise JSONDecodeError \/
  exists fields,
    loads f = Ok (JObj fields) /\
    (Py.assoc "type" fields <> Some (JStr "session.update") \/
     Py.assoc "session" fields = None \/
     exists sess, Py.assoc "session" fields = Some (JObj sess)).

(** ** The connector and the handler: more vocabulary *)

(** Events that are a log line or a token request. *)
Definition is_quiet (e : event) : bool :=
  match e with
  | LogError _ | GetToken _ => true
  | _ => false
  end.

(** The credential the connector may use for an agent configuration:
    for a remote agent a bearer token issued under the primary scope or,
    the primary scope failing, under the fallback scope; otherwise the
    configured static key. *)
Definition credential_for (w : world) (agent_config : option json) (h : headers)
  : Prop :=
  (remote_flag agent_config = Ok true /\
   exists t, h = Bearer t /\
             (w_get_token w PRIMARY_SCOPE = Ok t \/
              ((exists e, w_get_token w PRIMARY_SCOPE = Raise e) /\
               w_get_token w FALLBACK_SCOPE = Ok t))) \/
  (remote_flag agent_config = Ok false /\
   h = ApiKey (cfg_azure_openai_api_key (w_config w)) /\
   configured (cfg_azure_openai_api_key (w_config w)) = true).

(** A world in which the agent manager answers every lookup with
    [bare_agent], which has no instructions. *)
Definition bare_world : world :=
  {| w_config := sample_config;
     w_uuid4 := w_uuid4 sample_world; w_repr := w_repr sample_world;
     w_str_exn := w_str_exn sample_world;
     w_dumps := sample_dumps; w_hash := sample_hash;
     w_get_agent := fun _ => Ok (Some (JObj bare_agent));
     w_create_or_get_agent := Ok tt;
     w_get_token := w_get_token sample_world;
     w_connect := fun _ _ => Ok tt;
     w_send_config := Ok tt;
     w_close := Ok tt;
     w_first := Silent;
     w_client_turns := [];
     w_upstream_turns := [] |}.

(** A world in which the client names the agent "local", then sends a
    session update and an audio frame, while upstream sends a session
    update notice twice and an audio frame. *)
Definition busy_world : world :=
  {| w_config := sample_config;
     w_uuid4 := w_uuid4 sample_world; w_repr := w_repr sample_world;
     w_str_exn := w_str_exn sample_world;
     w_dumps := sample_dumps; w_hash := sample_hash;
     w_get_agent := w_get_agent sample_world;
     w_create_or_get_agent := Ok tt;
     w_get_token := w_get_token sample_world;
     w_connect := fun _ _ => Ok tt;
     w_send_config := Ok tt;
     w_close := Ok tt;
     w_first := Delivers 1 (Some (session_update_frame "local"));
     w_client_turns := [client_sends update_with_voice_frame; client_sends append_frame];
     w_upstream_turns := [upstream_sends (updated_frame "a");
                          upstream_sends (updated_frame "a");
                          upstream_sends delta_frame] |}.

(** [sample_config] without the resource name. *)
Definition resourceless_config : config :=
  mkConfig "" "gpt-4o" "" "my-project" "https://project.example/api"
           "secret-key" "en-US-Ava:DragonHDLatestNeural" "azure-standard".

(** * Properties *)

(** ** Agent identification *)

Lemma get_some_truthy (v : json) (k : string) (a : json) :
  Py.get v k JNull = Ok a -> Py.truthy a = true ->
  exists l, v = JObj l /\ Py.assoc k l = Some a.
Proof.
  destruct v; simpl; try discriminate.
  intros H Ht. exists fields. split; [reflexivity|].
  destruct (Py.assoc k fields) as [x|].
  - congruence.
  - injection H as <-. discriminate.
Qed.

Lemma eq_str_true (v : json) (s : string) :
  Py.eq_str v s = true <-> v = JStr s.
Proof.
  split.
  - destruct v; simpl; try discriminate.
    intros H. apply String.eqb_eq in H. now subst.
  - intros ->. simpl. apply String.eqb_refl.
Qed.

Lemma extract_agent_id_some (f : frame) (a : json) :
  extract_agent_id f = Ok (Some a) <->
  exists msg, loads f = Ok msg /\ carries_agent_id msg a /\ Py.truthy a = true.
Proof.
  unfold extract_agent_id, carries_agent_id. split.
  - destruct (loads f) as [msg|e]; simpl; [|discriminate].
    destruct msg; simpl; try discriminate.
    destruct (Py.eq_str _ "session.update") eqn:Hty; [|discriminate].
    apply eq_str_true in Hty.
    destruct (Py.assoc "type" fields) as [ty|] eqn:Hat; [|discriminate].
    subst ty.
    destruct (Py.assoc "session" fields) as [sess|] eqn:Has; simpl.
    + destruct sess; simpl; try discriminate.
      destruct (Py.assoc "agent_id" fields0) as [x|] eqn:Haa; simpl.
      * destruct (Py.truthy x) eqn:Ht; [|discriminate].
        intros H. injection H as <-.
        exists (JObj fields). split; [reflexivity|]. split; [|assumption].
        exists fields, fields0. auto.
      * discriminate.
    + discriminate.
  - intros (msg & Hl & (fields & sess & -> & Hty & Hs & Ha) & Ht).
    rewrite Hl. simpl. rewrite Hty, Hs. simpl. rewrite Ha, Ht. reflexivity.
Qed.

Lemma identification_returns (client : receive_behaviour) :
  exists o, _get_agent_id_from_client client = Ok o.
Proof.
  unfold _get_agent_id_from_client.
  destruct (wait_for client timeout_seconds) as [[f|]|e].
  - destruct (negb _).
    + destruct (extract_agent_id f) as [[a|]|e]; eauto. destruct e; eauto.
    + eauto.
  - eauto.
  - destruct e; eauto.
Qed.

Lemma identification_some (client : receive_behaviour) (a : json) :
  _get_agent_id_from_client client = Ok (Some a) <->
  exists d f,
    client = Delivers d (Some f) /\ (d <= timeout_seconds)%Z /\
    raw f <> "" /\ extract_agent_id f = Ok (Some a).
Proof.
  unfold _get_agent_id_from_client. split.
  - destruct client as [d [f|]| |e]; simpl.
    + destruct (Z.leb d timeout_seconds) eqn:Hd; [|discriminate].
      destruct (String.eqb (raw f) "") eqn:Hr; simpl; [discriminate|].
      destruct (extract_agent_id f) as [[x|]|e] eqn:He;
        try discriminate; [|destruct e; discriminate].
      intros H. injection H as <-.
      exists d, f. repeat split; auto.
      * now apply Z.leb_le.
      * now apply String.eqb_neq.
    + destruct (Z.leb d timeout_seconds); discriminate.
    + discriminate.
    + destruct e; discriminate.
  - intros (d & f & -> & Hd & Hr & He). simpl.
    apply Z.leb_le in Hd. rewrite Hd.
    apply String.eqb_neq in Hr. rewrite Hr. simpl. now rewrite He.
Qed.

(** C1, as stated, fails: a session update whose nested agent
    identifier is the empty string arrives in time and parses, and the
    identification does not return that identifier. *)
Lemma C1_empty_identifier_not_returned :
  ~ (forall (d : Z) (f : frame) (msg a : json),
        (d <= timeout_seconds)%Z -> loads f = Ok msg -> carries_agent_id msg a ->
        _get_agent_id_from_client (Delivers d (Some f)) = Ok (Some a)).
Proof.
  intros H.
  specialize (H 0%Z
                (session_update_frame "")
                (session_update_with (JStr "")) (JStr "")).
  assert (Hc : carries_agent_id (session_update_with (JStr "")) (JStr "")).
  { eexists _, _. repeat split; reflexivity. }
  specialize (H ltac:(unfold timeout_seconds; lia) eq_refl Hc).
  discriminate H.
Qed.

(** C1 (amended): identification returns the nested agent identifier
    exactly when the first frame arrives within the 10-unit bound, is
    not empty, parses as a session update carrying a nested agent
    identifier and that identifier is a true (non-empty) value; in every
    other case it returns none, and it never raises.  The frame
    [{type: "session.update", session: {agent_id: "X"}}] yields ["X"]. *)
Theorem C1_identification (client : receive_behaviour) :
  (forall a, identified client a <->
             _get_agent_id_from_client client = Ok (Some a)) /\
  ((~ exists a, identified client a) <->
   _get_agent_id_from_client client = Ok None) /\
  _get_agent_id_from_client (Delivers 0 (Some (session_update_frame "X")))
    = Ok (Some (JStr "X")).
Proof.
  assert (Hiff : forall a, identified client a <->
                           _get_agent_id_from_client client = Ok (Some a)).
  { intros a. rewrite identification_some. unfold identified. split.
    - intros (d & f & msg & Hc & Hd & Hr & Hl & Hs & Ht).
      exists d, f. repeat split; auto.
      apply extract_agent_id_some. eauto.
    - intros (d & f & Hc & Hd & Hr & He).
      apply extract_agent_id_some in He as (msg & Hl & Hs & Ht).
      exists d, f, msg. repeat (split; [assumption|]). assumption. }
  split; [exact Hiff|]. split; [|reflexivity].
  destruct (identification_returns client) as [[a|] Ho]; rewrite Ho.
  - split; [|discriminate].
    intros Hn. exfalso. apply Hn. exists a. now apply Hiff.
  - split; [reflexivity|].
    intros _ [a Ha]. apply Hiff in Ha. congruence.
Qed.

(** C9: when the first frame is a session update whose session object
    binds agent_id to an empty or otherwise false value, identification
    returns none; an identifier is returned only when it is a true
    (non-empty) value. *)
Theorem C9_falsy_identifier_is_none :
  (forall (d : Z) (f : frame) (fields sess : list (string * json)) (a : json),
      loads f = Ok (JObj fields) ->
      Py.assoc "type" fields = Some (JStr "session.update") ->
      Py.assoc "session" fields = Some (JObj sess) ->
      Py.assoc "agent_id" sess = Some a ->
      Py.truthy a = false ->
      _get_agent_id_from_client (Delivers d (Some f)) = Ok None) /\
  (forall (client : receive_behaviour) (a : json),
      _get_agent_id_from_client client = Ok (Some a) -> Py.truthy a = true).
Proof.
  split.
  - intros d f fields sess a Hl Hty Hs Ha Ht.
    unfold _get_agent_id_from_client. simpl.
    destruct (Z.leb d timeout_seconds); [|reflexivity].
    destruct (negb _); [|reflexivity].
    unfold extract_agent_id. rewrite Hl. simpl.
    rewrite Hty, Hs. simpl. rewrite Ha, Ht. reflexivity.
  - intros client a H.
    apply identification_some in H as (d & f & _ & _ & _ & He).
    apply extract_agent_id_some in He as (msg & _ & _ & Ht). exact Ht.
Qed.

Lemma C9_witness :
  _get_agent_id_from_client (Delivers 1 (Some (session_update_frame ""))) = Ok None.
Proof.
  apply (proj1 C9_falsy_identifier_is_none 1%Z (session_update_frame "")
           [("type", JStr "session.update"); ("session", JObj [("agent_id", JStr "")])]
           [("agent_id", JStr "")] (JStr ""));
    reflexivity.
Defined.

(** ** Client to upstream *)

Lemma assoc_remove_other (k k' : string) (l : list (string * json)) :
  k' <> k -> Py.assoc k' (Py.remove k l) = Py.assoc k' l.
Proof.
  intros Hne. induction l as [|[k0 v] l IH]; simpl; [reflexivity|].
  destruct (String.eqb k k0) eqn:Hk.
  - apply String.eqb_eq in Hk. subst k0.
    apply String.eqb_neq in Hne. now rewrite Hne.
  - simpl. now rewrite IH.
Qed.

Lemma assoc_remove_same (k : string) (l : list (string * json)) :
  Py.assoc k (Py.remove k l) = None.
Proof.
  induction l as [|[k0 v] l IH]; simpl; [reflexivity|].
  destruct (String.eqb k k0) eqn:Hk; [exact IH|].
  simpl. now rewrite Hk.
Qed.

Lemma assoc_update_same (k : string) (x : json) (l : list (string * json)) :
  Py.assoc k (Py.update k x l) = Some x.
Proof.
  induction l as [|[k0 v] l IH]; simpl.
  - now rewrite String.eqb_refl.
  - destruct (String.eqb k k0) eqn:Hk; simpl; now rewrite Hk.
Qed.

Lemma assoc_update_other (k k' : string) (x : json) (l : list (string * json)) :
  k' <> k -> Py.assoc k' (Py.update k x l) = Py.assoc k' l.
Proof.
  intros Hne. apply String.eqb_neq in Hne.
  induction l as [|[k0 v] l IH]; simpl.
  - now rewrite Hne.
  - destruct (String.eqb k k0) eqn:Hk; simpl.
    + apply String.eqb_eq in Hk. subst k0. now rewrite Hne.
    + now rewrite IH.
Qed.

(** On a session update whose session object has an agent_id, the
    stripping code sends the re-serialized message with that field gone
    and everything else in place. *)
Lemma strip_removes_agent_id (f : frame) (fields sess : list (string * json)) (a : json) :
  loads f = Ok (JObj fields) ->
  Py.assoc "type" fields = Some (JStr "session.update") ->
  Py.assoc "session" fields = Some (JObj sess) ->
  Py.assoc "agent_id" sess = Some a ->
  exists fields' sess',
    strip_agent_id f = Ok (Dumps (JObj fields')) /\
    Py.assoc "session" fields' = Some (JObj sess') /\
    Py.assoc "agent_id" sess' = None /\
    (forall k, k <> "agent_id" -> Py.assoc k sess' = Py.assoc k sess) /\
    (forall k, k <> "session" -> Py.assoc k fields' = Py.assoc k fields) /\
    map fst fields' = map fst fields.
Proof.
  intros Hl Hty Hs Ha.
  exists (Py.update "session" (JObj (Py.remove "agent_id" sess)) fields),
         (Py.remove "agent_id" sess).
  split; [|split; [|split; [|split; [|split]]]].
  - unfold strip_agent_id, strip_agent_id_body.
    rewrite Hl. simpl. rewrite Hty. simpl. rewrite Hs. simpl. rewrite Ha.
    reflexivity.
  - apply assoc_update_same.
  - apply assoc_remove_same.
  - intros k Hk. now apply assoc_remove_other.
  - intros k Hk. now apply assoc_update_other.
  - clear Hl Hty. induction fields as [|[k0 v] l IH]; [discriminate|].
    cbn [Py.assoc] in Hs. cbn [Py.update].
    destruct (String.eqb "session" k0) eqn:Hk; cbn [map fst]; [reflexivity|].
    f_equal. now apply IH.
Qed.

(** A frame that does not parse is sent as received. *)
Lemma strip_keeps_unparsed (f : frame) :
  loads f = Raise JSONDecodeError -> strip_agent_id f = Ok (Verbatim (raw f)).
Proof.
  intros Hl. unfold strip_agent_id, strip_agent_id_body. now rewrite Hl.
Qed.

(** An object of another type, or a session update whose session
    object has no agent_id, is sent as received. *)
Lemma strip_keeps_other_objects (f : frame) (fields : list (string * json)) :
  loads f = Ok (JObj fields) ->
  Py.assoc "type" fields <> Some (JStr "session.update") \/
  Py.assoc "session" fields = None \/
  (exists sess, Py.assoc "session" fields = Some (JObj sess) /\
                Py.assoc "agent_id" sess = None) ->
  strip_agent_id f = Ok (Verbatim (raw f)).
Proof.
  intros Hl H. unfold strip_agent_id, strip_agent_id_body. rewrite Hl. simpl.
  destruct (Py.eq_str _ "session.update") eqn:Hty; [|reflexivity].
  apply eq_str_true in Hty.
  destruct H as [H | [H | (sess & Hs & Ha)]].
  - destruct (Py.assoc "type" fields); [|discriminate]. congruence.
  - rewrite H. reflexivity.
  - rewrite Hs. simpl. rewrite Ha. reflexivity.
Qed.

(** C3: the frame [[1]] parses and is not a session update, yet it is
    not forwarded: [list.get] raises [AttributeError], which the inner
    [except (json.JSONDecodeError, KeyError)] does not catch, so the
    loop ends and the frames that follow are lost as well. *)
Theorem C3_non_object_frame_not_forwarded :
  strip_agent_id array_frame = Raise AttributeError /\
  _forward_client_to_azure [client_sends array_frame; client_sends append_frame] = [] /\
  _forward_client_to_azure [client_sends append_frame]
    = [Verbatim (raw append_frame)].
Proof.
  repeat split.
Qed.

(** C10: the frame [{"type": "session.update", "session": null}] parses
    and has no agent_id inside a session object, yet it is not forwarded
    at all: ["agent_id" in None] raises [TypeError], which ends the
    loop. *)
Theorem C10_null_session_frame_not_forwarded :
  strip_agent_id null_session_frame = Raise TypeError /\
  _forward_client_to_azure [client_sends null_session_frame; client_sends append_frame]
    = [].
Proof.
  split; reflexivity.
Qed.

(** ** Upstream to client *)

Lemma leb_spec (a b : string) :
  String.leb a b = true <-> a = b \/ String_as_OT.lt a b.
Proof.
  unfold String.leb.
  destruct (String.compare a b) eqn:Hc.
  - apply String_as_OT.cmp_eq in Hc. tauto.
  - apply String_as_OT.cmp_lt in Hc. tauto.
  - split; [discriminate|].
    intros [->|Hlt].
    + assert (H : String.compare b b = Eq) by now apply String_as_OT.cmp_eq.
      congruence.
    + apply String_as_OT.cmp_lt in Hlt. unfold String_as_OT.cmp in Hlt. congruence.
Qed.

Lemma leb_trans (a b c : string) :
  String.leb a b = true -> String.leb b c = true -> String.leb a c = true.
Proof.
  rewrite !leb_spec. intros [->|H1] [->|H2]; auto.
  right. eapply String_as_OT.lt_trans; eassumption.
Qed.

Lemma leb_false_flip (a b : string) :
  String.leb a b = false -> String.leb b a = true.
Proof.
  intros H. destruct (String.leb_total a b) as [H'|H']; congruence.
Qed.

Lemma leb_distinct (a b : string) :
  a <> b -> String.leb a b = true -> String.leb b a = false.
Proof.
  intros Hne H1. destruct (String.leb b a) eqn:H2; [|reflexivity].
  exfalso. apply Hne. now apply String.leb_antisym.
Qed.

(** Inserting two fields with different keys gives the same list in
    either order. *)
Lemma insert_field_swap (a b : string * json) (l : list (string * json)) :
  fst a <> fst b ->
  insert_field a (insert_field b l) = insert_field b (insert_field a l).
Proof.
  intros Hne. induction l as [|c l IH]; cbn [insert_field].
  - destruct (String.leb (fst a) (fst b)) eqn:Hab.
    + now rewrite (leb_distinct _ _ Hne Hab).
    + now rewrite (leb_false_flip _ _ Hab).
  - assert (Hba : String.leb (fst b) (fst a) = negb (String.leb (fst a) (fst b))).
    { destruct (String.leb (fst a) (fst b)) eqn:Hab.
      - now apply leb_distinct.
      - now apply leb_false_flip. }
    destruct (String.leb (fst a) (fst b)) eqn:Hab; cbn [negb] in Hba;
      destruct (String.leb (fst b) (fst c)) eqn:Hbc;
      destruct (String.leb (fst a) (fst c)) eqn:Hac;
      repeat (cbn [insert_field]; rewrite ?Hab, ?Hba, ?Hbc, ?Hac);
      try reflexivity; try (now rewrite IH).
    + rewrite (leb_trans _ _ _ Hab Hbc) in Hac. discriminate.
    + rewrite (leb_trans _ _ _ Hba Hac) in Hbc. discriminate.
Qed.

(** Sorting by key forgets the order in which distinct keys came. *)
Lemma sort_fields_perm (l l' : list (string * json)) :
  Permutation l l' -> NoDup (map fst l) -> sort_fields l = sort_fields l'.
Proof.
  unfold sort_fields.
  induction 1 as [|x l l' Hp IH|x y l|l l' l'' Hp1 IH1 Hp2 IH2]; intros Hnd.
  - reflexivity.
  - cbn [fold_right]. rewrite IH; [reflexivity|].
    now inversion Hnd.
  - cbn [fold_right]. apply insert_field_swap.
    cbn [map] in Hnd. inversion Hnd as [|? ? Hnotin _]; subst.
    intros Heq. apply Hnotin. left. symmetry. exact Heq.
  - rewrite IH1 by assumption. apply IH2.
    eapply Permutation_NoDup; [|exact Hnd].
    now apply Permutation_map.
Qed.

(** Values with the same content have the same canonical form, hence
    the same serialization under [sort_keys=True] and the same hash. *)
Lemma sort_keys_canonical (u v : json) :
  same_content u v -> sort_keys u = sort_keys v.
Proof.
  induction 1 as [v|u v x _ IH1 _ IH2|l l' Hp Hnd|pre post x y _ IH|pre post k x y _ IH].
  - reflexivity.
  - congruence.
  - cbn [sort_keys]. f_equal. apply sort_fields_perm.
    + now apply Permutation_map.
    + rewrite map_map. cbn [fst]. exact Hnd.
  - cbn [sort_keys]. rewrite !map_app. cbn [map]. now rewrite IH.
  - cbn [sort_keys]. rewrite !map_app. cbn [map fst snd]. now rewrite IH.
Qed.

Lemma any_keyword_on_string (ks : list string) (t : string) :
  exists b, any_keyword ks (JStr t) = Ok b.
Proof.
  induction ks as [|k ks IH]; simpl; [eauto|].
  destruct (Py.is_substring k t); eauto.
Qed.

Section DedupFacts.

Variable json_dumps : json -> string.
Variable py_hash : string -> Z.

(** A session-updated frame whose session content is an object is
    suppressed exactly when its hash is the recorded one; otherwise
    its hash is recorded and it is forwarded. *)
Lemma dedup_session_updated (last : option Z) (f : frame)
      (fields sess : list (string * json)) :
  loads f = Ok (JObj fields) ->
  Py.assoc "type" fields = Some (JStr "session.updated") ->
  session_of fields = JObj sess ->
  dedup json_dumps py_hash last f =
    if (match last with
        | Some h' => Z.eqb (session_hash json_dumps py_hash (JObj sess)) h'
        | None => false
        end)
    then Ok (Suppressed, last)
    else Ok (Forwarded, Some (session_hash json_dumps py_hash (JObj sess))).
Proof.
  intros Hl Hty Hs. unfold dedup, dedup_body.
  rewrite Hl. cbn [bind Py.get]. rewrite Hty. cbn [bind].
  replace (Py.eq_str (JStr "session.updated") "session.updated") with true
    by reflexivity.
  fold (session_of fields). rewrite Hs. cbn [bind].
  destruct last as [h'|].
  - destruct (Z.eqb _ h'); reflexivity.
  - reflexivity.
Qed.

(** A frame with any other string as type is forwarded and leaves
    the recorded hash alone. *)
Lemma dedup_other_type (last : option Z) (f : frame)
      (fields : list (string * json)) (t : string) :
  loads f = Ok (JObj fields) ->
  Py.assoc "type" fields = Some (JStr t) \/
  (Py.assoc "type" fields = None /\ t = "") ->
  t <> "session.updated" ->
  dedup json_dumps py_hash last f = Ok (Forwarded, last).
Proof.
  intros Hl Hty Hne. unfold dedup, dedup_body.
  rewrite Hl. cbn [bind Py.get].
  assert (Ht : match Py.assoc "type" fields with
               | Some x => x
               | None => JStr ""
               end = JStr t).
  { destruct Hty as [-> | [-> ->]]; reflexivity. }
  rewrite Ht. cbn [bind Py.eq_str].
  apply String.eqb_neq in Hne. rewrite Hne. cbn [fst].
  destruct (any_keyword_on_string WEBRTC_KEYWORDS t) as [b ->].
  reflexivity.
Qed.

(** A frame that is not JSON is forwarded. *)
Lemma dedup_not_json (last : option Z) (f : frame) :
  loads f = Raise JSONDecodeError ->
  dedup json_dumps py_hash last f = Ok (Forwarded, last).
Proof.
  intros Hl. unfold dedup, dedup_body. now rewrite Hl.
Qed.

(** The session hash does not depend on the order of the keys. *)
Lemma session_hash_key_order (u v : json) :
  same_content u v -> session_hash json_dumps py_hash u = session_hash json_dumps py_hash v.
Proof.
  intros H. unfold session_hash. now rewrite (sort_keys_canonical u v H).
Qed.

(** Two session-updated frames in a row with the same session
    content: the second one is suppressed; a third one whose hash
    differs is forwarded. *)
Lemma second_identical_update_suppressed
      (f1 f2 f3 : frame) (fields1 fields2 fields3 sess sess3 : list (string * json)) :
  loads f1 = Ok (JObj fields1) ->
  loads f2 = Ok (JObj fields2) ->
  loads f3 = Ok (JObj fields3) ->
  Py.assoc "type" fields1 = Some (JStr "session.updated") ->
  Py.assoc "type" fields2 = Some (JStr "session.updated") ->
  Py.assoc "type" fields3 = Some (JStr "session.updated") ->
  session_of fields1 = JObj sess ->
  session_of fields2 = JObj sess ->
  session_of fields3 = JObj sess3 ->
  session_hash json_dumps py_hash (JObj sess3) <> session_hash json_dumps py_hash (JObj sess) ->
  _forward_azure_to_client json_dumps py_hash
    [upstream_sends f1; upstream_sends f2; upstream_sends f3]
  = [Verbatim (raw f1); Verbatim (raw f3)].
Proof.
  intros Hl1 Hl2 Hl3 Ht1 Ht2 Ht3 Hs1 Hs2 Hs3 Hne.
  unfold _forward_azure_to_client. cbn [forward_from upstream_sends yielded client_send].
  rewrite (dedup_session_updated None f1 fields1 sess Hl1 Ht1 Hs1).
  cbn [forward_from upstream_sends yielded client_send].
  rewrite (dedup_session_updated _ f2 fields2 sess Hl2 Ht2 Hs2).
  rewrite Z.eqb_refl.
  rewrite (dedup_session_updated _ f3 fields3 sess3 Hl3 Ht3 Hs3).
  apply Z.eqb_neq in Hne. rewrite Hne. reflexivity.
Qed.

(** C2: the upstream frame [{"type": null}] has a parsed type other
    than "session.updated" and is not forwarded: ["session" in None]
    raises [TypeError], which the inner [except json.JSONDecodeError]
    does not catch, so the loop ends and later frames are lost too.
    The same happens on the frame [[1]] ([AttributeError]). *)
Theorem C2_typeless_frame_not_forwarded :
  dedup json_dumps py_hash None null_type_frame = Raise TypeError /\
  dedup json_dumps py_hash None array_frame = Raise AttributeError /\
  _forward_azure_to_client json_dumps py_hash
    [upstream_sends null_type_frame; upstream_sends append_frame] = [] /\
  _forward_azure_to_client json_dumps py_hash
    [upstream_sends array_frame; upstream_sends append_frame] = [] /\
  _forward_azure_to_client json_dumps py_hash [upstream_sends append_frame]
    = [Verbatim (raw append_frame)].
Proof.
  repeat split.
Qed.

End DedupFacts.

(** ** Session configuration *)

Lemma truthy_obj_nonempty (fields : list (string * json)) :
  fields <> [] -> Py.truthy (JObj fields) = true.
Proof.
  destruct fields; [congruence | reflexivity].
Qed.

Lemma is_remote_nonempty (fields : list (string * json)) :
  is_remote fields -> fields <> [].
Proof.
  intros (flag & H & _) ->. discriminate.
Qed.

(** C4, as stated, fails: for a non-remote agent configuration that has
    no instructions entry no session configuration is built at all. *)
Lemma C4_missing_instructions_raises :
  ~ (forall (cfg : config) (agent_config : option json),
        exists message, initial_config cfg agent_config = Ok message).
Proof.
  intros H. destruct (H sample_config (Some (JObj bare_agent))) as [m Hm].
  discriminate Hm.
Qed.

(** C4 (amended): the built session configuration always holds the
    fixed default fields.  When the agent configuration is absent (or
    empty) or is a remote agent, it holds nothing else: none of model,
    instructions, temperature, max_response_output_tokens appears.  When
    it is present, not remote, and provides instructions, temperature
    and max_tokens, the session holds the defaults followed by those
    four fields, taken from the agent configuration (the model falling
    back to the default deployment name). *)
Theorem C4_session_config (cfg : config) :
  session_fields (_build_session_config cfg) = default_session cfg /\
  map fst (default_session cfg) =
    ["modalities"; "turn_detection"; "input_audio_noise_reduction";
     "input_audio_echo_cancellation"; "avatar"; "voice"] /\
  (forall k, In k LOCAL_FIELDS -> Py.assoc k (default_session cfg) = None) /\
  (forall agent_config,
      present agent_config = false ->
      initial_config cfg agent_config = Ok (_build_session_config cfg)) /\
  (forall fields,
      is_remote fields ->
      initial_config cfg (Some (JObj fields)) = Ok (_build_session_config cfg)) /\
  (forall fields i t m,
      is_local fields ->
      Py.assoc "instructions" fields = Some i ->
      Py.assoc "temperature" fields = Some t ->
      Py.assoc "max_tokens" fields = Some m ->
      initial_config cfg (Some (JObj fields)) =
        Ok (JObj [("type", JStr "session.update");
                  ("session",
                   JObj (default_session cfg ++
                         [("model", model_of cfg fields);
                          ("instructions", i);
                          ("temperature", t);
                          ("max_response_output_tokens", m)]))])).
Proof.
  split; [reflexivity|]. split; [reflexivity|]. split.
  { intros k Hk. simpl in Hk.
    destruct Hk as [<-|[<-|[<-|[<-|[]]]]]; reflexivity. }
  split.
  { intros [c|] Hp; [|reflexivity].
    unfold initial_config. simpl in Hp. now rewrite Hp. }
  split.
  { intros fields Hr.
    unfold initial_config.
    rewrite (truthy_obj_nonempty fields (is_remote_nonempty fields Hr)).
    destruct Hr as (flag & Hf & Ht).
    cbn [Py.get bind]. rewrite Hf, Ht. reflexivity. }
  intros fields i t m [Hne Hl] Hi Ht Hm.
  unfold initial_config. rewrite (truthy_obj_nonempty fields Hne).
  cbn [Py.get bind].
  assert (Hflag : Py.truthy (match Py.assoc "is_azure_agent" fields with
                             | Some x => x
                             | None => JNull
                             end) = false).
  { destruct (Py.assoc "is_azure_agent" fields); [exact Hl | reflexivity]. }
  rewrite Hflag. cbn [negb].
  unfold _add_local_agent_config, model_of.
  cbn [Py.get Py.getitem bind]. rewrite Hi, Ht, Hm.
  reflexivity.
Qed.

Lemma C4_witness :
  initial_config sample_config (Some (JObj local_agent)) =
    Ok (JObj [("type", JStr "session.update");
              ("session",
               JObj (default_session sample_config ++
                     [("model", JStr "m");
                      ("instructions", JStr "i");
                      ("temperature", JFloat "0.5");
                      ("max_response_output_tokens", JInt 100)]))]) /\
  initial_config sample_config (Some (JObj remote_agent)) =
    Ok (_build_session_config sample_config).
Proof.
  destruct (C4_session_config sample_config) as (_ & _ & _ & _ & Hremote & Hlocal).
  split.
  - apply (Hlocal local_agent (JStr "i") (JFloat "0.5") (JInt 100)).
    + split; [discriminate | reflexivity].
    + reflexivity.
    + reflexivity.
    + reflexivity.
  - apply Hremote. exists (JBool true). split; reflexivity.
Defined.

(** ** Upstream URL *)

(** C5: every URL starts with the common base, which holds the fixed
    API version and the trace identifier generated for this call, and
    goes on with exactly one parameter set, chosen in this order: (1) a
    resolved remote agent: agent-id and agent-project-name, then
    connection-string when a project endpoint is configured; (2) a
    resolved agent that is not remote: model, from the agent's model
    entry, else the default deployment name; (3) no resolved agent and
    a fixed agent identifier configured: that agent-id; (4) otherwise:
    the default deployment name as model. *)
Theorem C5_url_variants (py_repr : json -> string) (cfg : config)
    (client_request_id : string) (agent_id : option json) :
  let base := _build_base_azure_url cfg client_request_id in
  let build := _build_azure_url py_repr cfg client_request_id agent_id in
  base = "wss://" ++ cfg_azure_ai_resource_name cfg
           ++ ".cognitiveservices.azure.com/voice-agent/realtime"
           ++ "?api-version=2025-05-01-preview"
           ++ "&x-ms-client-request-id=" ++ client_request_id /\
  (forall fields,
      is_remote fields ->
      build (Some (JObj fields)) =
        Ok (if configured (cfg_project_endpoint cfg)
            then (base ++ "&agent-id=" ++ fmt_opt py_repr agent_id
                    ++ "&agent-project-name=" ++ cfg_azure_ai_project_name cfg)
                   ++ "&connection-string=" ++ cfg_project_endpoint cfg
            else base ++ "&agent-id=" ++ fmt_opt py_repr agent_id
                   ++ "&agent-project-name=" ++ cfg_azure_ai_project_name cfg)) /\
  (forall fields,
      is_local fields ->
      build (Some (JObj fields)) =
        Ok (base ++ "&model=" ++ py_str py_repr (model_of cfg fields))) /\
  (forall agent_config,
      present agent_config = false ->
      configured (cfg_agent_id cfg) = true ->
      build agent_config = Ok (base ++ "&agent-id=" ++ cfg_agent_id cfg)) /\
  (forall agent_config,
      present agent_config = false ->
      configured (cfg_agent_id cfg) = false ->
      build agent_config = Ok (base ++ "&model=" ++ cfg_model_deployment_name cfg)).
Proof.
  cbv zeta. split.
  { unfold _build_base_azure_url, AZURE_COGNITIVE_SERVICES_DOMAIN,
      VOICE_AGENT_ENDPOINT, AZURE_VOICE_API_VERSION.
    reflexivity. }
  split.
  { intros fields Hr. unfold _build_azure_url.
    rewrite (truthy_obj_nonempty fields (is_remote_nonempty fields Hr)).
    destruct Hr as (flag & Hf & Ht).
    unfold _build_agent_specific_url. cbn [Py.get bind]. rewrite Hf, Ht.
    destruct (configured (cfg_project_endpoint cfg)); reflexivity. }
  split.
  { intros fields [Hne Hl]. unfold _build_azure_url.
    rewrite (truthy_obj_nonempty fields Hne).
    unfold _build_agent_specific_url, model_of. cbn [Py.get bind].
    destruct (Py.assoc "is_azure_agent" fields) as [flag|].
    - rewrite Hl. reflexivity.
    - reflexivity. }
  split.
  - intros [c|] Hp Hc; unfold _build_azure_url; simpl in Hp;
      rewrite ?Hp, Hc; reflexivity.
  - intros [c|] Hp Hc; unfold _build_azure_url; simpl in Hp;
      rewrite ?Hp, Hc; reflexivity.
Qed.

Lemma C5_witness :
  _build_azure_url (fun _ => "?") sample_config "trace-1"
                   (Some (JStr "remote")) (Some (JObj remote_agent))
  = Ok ("wss://my-resource.cognitiveservices.azure.com/voice-agent/realtime"
          ++ "?api-version=2025-05-01-preview&x-ms-client-request-id=trace-1"
          ++ "&agent-id=remote&agent-project-name=my-project"
          ++ "&connection-string=https://project.example/api") /\
  _build_azure_url (fun _ => "?") sample_config "trace-1"
                   (Some (JStr "local")) (Some (JObj local_agent))
  = Ok ("wss://my-resource.cognitiveservices.azure.com/voice-agent/realtime"
          ++ "?api-version=2025-05-01-preview&x-ms-client-request-id=trace-1"
          ++ "&model=m") /\
  _build_azure_url (fun _ => "?") fixed_agent_config "trace-1" None None
  = Ok ("wss://my-resource.cognitiveservices.azure.com/voice-agent/realtime"
          ++ "?api-version=2025-05-01-preview&x-ms-client-request-id=trace-1"
          ++ "&agent-id=agent-1") /\
  _build_azure_url (fun _ => "?") sample_config "trace-1" None None
  = Ok ("wss://my-resource.cognitiveservices.azure.com/voice-agent/realtime"
          ++ "?api-version=2025-05-01-preview&x-ms-client-request-id=trace-1"
          ++ "&model=gpt-4o").
Proof.
  split; [|split; [|split]].
  - apply (proj1 (proj2 (C5_url_variants (fun _ => "?") sample_config "trace-1"
                           (Some (JStr "remote")))) remote_agent).
    exists (JBool true). split; reflexivity.
  - apply (proj1 (proj2 (proj2 (C5_url_variants (fun _ => "?") sample_config "trace-1"
                                  (Some (JStr "local"))))) local_agent).
    split; [discriminate | reflexivity].
  - apply (proj1 (proj2 (proj2 (proj2 (C5_url_variants (fun _ => "?") fixed_agent_config
                                         "trace-1" None)))) None);
      reflexivity.
  - apply (proj2 (proj2 (proj2 (proj2 (C5_url_variants (fun _ => "?") sample_config
                                         "trace-1" None)))) None);
      reflexivity.
Defined.

(** ** Credential selection *)

Ltac run_m :=
  cbv [bindM try_catch attempt emit lift ret set_link get_token
       ws_connect ws_send_config ws_close _send_message _send_error];
  cbn [trace upstream fst snd].

Ltac tidy :=
  repeat (progress (cbn [trace upstream fst snd app]; rewrite <- ?app_assoc)).

Lemma added_refl (s : state) : added s s [].
Proof. unfold added. now rewrite app_nil_r. Qed.

Lemma added_trans (s1 s2 s3 : state) (es1 es2 : list event) :
  added s1 s2 es1 -> added s2 s3 es2 -> added s1 s3 (es1 ++ es2).
Proof.
  unfold added. intros H1 H2. rewrite H2, H1. now rewrite app_assoc.
Qed.

(** What the selection block does, case by case. *)
Lemma select_headers_cases (w : world) (remote : bool) (s : state) :
  exists (r : option headers) (es : list event),
    select_headers w remote s = (Ok r, mkState (trace s ++ es) (upstream s)) /\
    filter is_connect es = [].
Proof.
  unfold select_headers.
  destruct remote.
  - destruct (configured (cfg_azure_ai_project_name (w_config w))); cbn [negb].
    + run_m.
      destruct (w_get_token w PRIMARY_SCOPE) as [t|e] eqn:H1.
      * exists (Some (Bearer t)), [GetToken PRIMARY_SCOPE]. split; reflexivity.
      * run_m. destruct (w_get_token w FALLBACK_SCOPE) as [t|e2] eqn:H2.
        -- exists (Some (Bearer t)),
             [GetToken PRIMARY_SCOPE; LogError "Failed to get Azure AD token: %s";
              GetToken FALLBACK_SCOPE].
           tidy. split; reflexivity.
        -- exists None,
             [GetToken PRIMARY_SCOPE; LogError "Failed to get Azure AD token: %s";
              GetToken FALLBACK_SCOPE;
              LogError "Failed to get Azure AD token with fallback scope: %s"].
           tidy. split; reflexivity.
    + run_m. eexists None, [_]. split; reflexivity.
  - destruct (configured (cfg_azure_openai_api_key (w_config w))); cbn [negb].
    + run_m. exists (Some (ApiKey (cfg_azure_openai_api_key (w_config w)))), [].
      rewrite app_nil_r. destruct s. split; reflexivity.
    + run_m. eexists None, [_]. split; reflexivity.
Qed.

(** When the selection block gives no credential, the connector
    returns [None] right after it. *)
Lemma connect_without_credential (w : world) (agent_id agent_config : option json)
      (remote : bool) (s : state) :
  configured (cfg_azure_ai_resource_name (w_config w)) = true ->
  lookup_agent w agent_id = Ok agent_config ->
  remote_flag agent_config = Ok remote ->
  fst (select_headers w remote s) = Ok None ->
  _connect_to_azure w agent_id s = (Ok None, snd (select_headers w remote s)).
Proof.
  intros Hres Hlook Hflag Hsel.
  unfold _connect_to_azure, prepare. rewrite Hres. cbn [negb].
  cbv [bindM try_catch lift].
  rewrite Hlook, Hflag.
  destruct (select_headers w remote s) as [r s1]. cbn [fst snd] in *.
  subst r. reflexivity.
Qed.

(** C6, as stated, fails: for a remote agent in a deployment without
    project name the selection fails although the credential would
    issue a token, and no token is asked for. *)
Lemma C6_project_name_guard :
  ~ (forall (w : world) (s : state) (t : string),
        w_get_token w PRIMARY_SCOPE = Ok t ->
        fst (select_headers w true s) = Ok (Some (Bearer t))).
Proof.
  intros H.
  specialize (H (with_config sample_world projectless_config) initial_state
                "token" eq_refl).
  discriminate H.
Qed.

(** C6 (amended): credential selection fails exactly when no usable
    credential can be produced or, for a remote agent, the project name
    is not configured (the failure then comes before any token
    attempt).  For a remote agent with the project name configured, a
    token is asked for under the primary scope and, when that fails,
    under the fallback scope; either success gives a bearer credential,
    and only when both fail does the selection fail.  For a non-remote
    agent or no agent the static key is the credential, and the
    selection fails when it is not configured.  A failed selection
    makes the connector return failure without any connection attempt. *)
Theorem C6_credential_selection (w : world) (s : state) :
  let cfg := w_config w in
  let after es := mkState (trace s ++ es) (upstream s) in
  (configured (cfg_azure_ai_project_name cfg) = false ->
   select_headers w true s
   = (Ok None,
      after [LogError "AZURE_AI_PROJECT_NAME is required for Azure AI agents but not configured"])) /\
  (configured (cfg_azure_ai_project_name cfg) = true ->
   (forall t,
       w_get_token w PRIMARY_SCOPE = Ok t ->
       select_headers w true s
       = (Ok (Some (Bearer t)), after [GetToken PRIMARY_SCOPE])) /\
   (forall e t,
       w_get_token w PRIMARY_SCOPE = Raise e ->
       w_get_token w FALLBACK_SCOPE = Ok t ->
       select_headers w true s
       = (Ok (Some (Bearer t)),
          after [GetToken PRIMARY_SCOPE;
                 LogError "Failed to get Azure AD token: %s";
                 GetToken FALLBACK_SCOPE])) /\
   (forall e1 e2,
       w_get_token w PRIMARY_SCOPE = Raise e1 ->
       w_get_token w FALLBACK_SCOPE = Raise e2 ->
       select_headers w true s
       = (Ok None,
          after [GetToken PRIMARY_SCOPE;
                 LogError "Failed to get Azure AD token: %s";
                 GetToken FALLBACK_SCOPE;
                 LogError "Failed to get Azure AD token with fallback scope: %s"]))) /\
  (configured (cfg_azure_openai_api_key cfg) = true ->
   select_headers w false s = (Ok (Some (ApiKey (cfg_azure_openai_api_key cfg))), s)) /\
  (configured (cfg_azure_openai_api_key cfg) = false ->
   select_headers w false s
   = (Ok None,
      after [LogError "AZURE_OPENAI_API_KEY is required for non-agent mode but not configured"])) /\
  (forall agent_id agent_config remote,
      configured (cfg_azure_ai_resource_name cfg) = true ->
      lookup_agent w agent_id = Ok agent_config ->
      remote_flag agent_config = Ok remote ->
      fst (select_headers w remote s) = Ok None ->
      exists s',
        _connect_to_azure w agent_id s = (Ok None, s') /\
        filter is_connect (trace s') = filter is_connect (trace s) /\
        upstream s' = upstream s).
Proof.
  cbv zeta. split; [|split; [|split; [|split]]].
  - intros Hp. unfold select_headers. rewrite Hp. reflexivity.
  - intros Hp. unfold select_headers. rewrite Hp. cbn [negb].
    split; [|split].
    + intros t H1. run_m. rewrite H1. reflexivity.
    + intros e t H1 H2. run_m. rewrite H1. run_m. rewrite H2.
      tidy. reflexivity.
    + intros e1 e2 H1 H2. run_m. rewrite H1. run_m. rewrite H2.
      tidy. reflexivity.
  - intros Hk. unfold select_headers. rewrite Hk. destruct s. reflexivity.
  - intros Hk. unfold select_headers. rewrite Hk. reflexivity.
  - intros agent_id agent_config remote Hres Hlook Hflag Hsel.
    exists (snd (select_headers w remote s)).
    split; [now apply connect_without_credential with agent_config|].
    destruct (select_headers_cases w remote s) as (r & es & -> & Hes).
    cbn [snd trace upstream]. rewrite filter_app, Hes, app_nil_r. auto.
Qed.

Lemma C6_witness :
  select_headers (with_tokens sample_world primary_fails) true initial_state
  = (Ok (Some (Bearer "fallback-token")),
     mkState [GetToken PRIMARY_SCOPE;
              LogError "Failed to get Azure AD token: %s";
              GetToken FALLBACK_SCOPE] NotOpened) /\
  exists s',
    _connect_to_azure (with_tokens sample_world both_fail)
                      (Some (JStr "remote")) initial_state = (Ok None, s') /\
    filter is_connect (trace s') = [] /\
    upstream s' = NotOpened.
Proof.
  split.
  - apply (proj1 (proj2 (proj1 (proj2 (C6_credential_selection
                                         (with_tokens sample_world primary_fails)
                                         initial_state)) eq_refl))
             (OtherException "primary scope refused") "fallback-token");
      reflexivity.
  - apply (proj2 (proj2 (proj2 (proj2 (C6_credential_selection
                                         (with_tokens sample_world both_fail)
                                         initial_state))))
             (Some (JStr "remote")) (Some (JObj remote_agent)) true);
      reflexivity.
Defined.

(** ** The upstream connector *)

Lemma bind_raise {A B : Type} (r : result A) (k : A -> result B) (e : exn) :
  bind r k = Raise e ->
  r = Raise e \/ exists a, r = Ok a /\ k a = Raise e.
Proof.
  destruct r as [a|e']; simpl; intros H.
  - right. eauto.
  - left. congruence.
Qed.

Lemma get_raises (v : json) (k : string) (d : json) (e : exn) :
  Py.get v k d = Raise e -> is_py_error e = true.
Proof. destruct v; simpl; intros H; inversion H; reflexivity. Qed.

Lemma getitem_raises (v : json) (k : string) (e : exn) :
  Py.getitem v k = Raise e -> is_py_error e = true.
Proof.
  destruct v; simpl; intros H; try (inversion H; reflexivity).
  destruct (Py.assoc k fields); inversion H; reflexivity.
Qed.

Lemma setitem_raises (v : json) (k : string) (x : json) (e : exn) :
  Py.setitem v k x = Raise e -> is_py_error e = true.
Proof. destruct v; simpl; intros H; inversion H; reflexivity. Qed.

Ltac py_raise H :=
  repeat match type of H with
    | bind _ _ = Raise _ =>
        apply bind_raise in H; destruct H as [H | (? & _ & H)]
    | Py.get _ _ _ = Raise _ => exact (get_raises _ _ _ _ H)
    | Py.getitem _ _ = Raise _ => exact (getitem_raises _ _ _ H)
    | Py.setitem _ _ _ = Raise _ => exact (setitem_raises _ _ _ _ H)
    end.

(** Building the initial configuration raises nothing but the errors
    of dict access. *)
Lemma initial_config_raises (cfg : config) (agent_config : option json) (e : exn) :
  initial_config cfg agent_config = Raise e -> is_py_error e = true.
Proof.
  unfold initial_config. destruct agent_config as [c|]; [|discriminate].
  destruct (Py.truthy c); [|discriminate].
  intros H. apply bind_raise in H. destruct H as [H | (flag & _ & H)].
  - py_raise H.
  - destruct (negb (Py.truthy flag)); [|discriminate].
    unfold _add_local_agent_config in H. py_raise H.
Qed.

Lemma py_error_not_ws (e : exn) : is_py_error e = true -> is_ws_exception e = false.
Proof. destruct e; simpl; congruence. Qed.

Lemma connect_failed_unbound (w : world) (e : exn) (s : state) :
  exists es,
    connect_failed w false e s = (Ok None, mkState (trace s ++ es) (upstream s)) /\
    filter is_connect es = [].
Proof.
  destruct e; unfold connect_failed; run_m; tidy;
    eexists; split; reflexivity.
Qed.

Lemma connect_failed_bound (w : world) (e : exn) (s : state) :
  exists s',
    connect_failed w true e s = (Ok None, s') /\
    upstream s' = (if is_ws_exception e then upstream s else Closed).
Proof.
  destruct e; unfold connect_failed; run_m; tidy;
    try (eexists; split; reflexivity);
    destruct (w_close w); eexists; split; reflexivity.
Qed.

Lemma prepare_cases (w : world) (agent_id : option json) (s : state) :
  exists r es,
    prepare w agent_id s = (r, mkState (trace s ++ es) (upstream s)) /\
    filter is_connect es = [].
Proof.
  unfold prepare.
  destruct (configured (cfg_azure_ai_resource_name (w_config w))); cbn [negb].
  - cbv [bindM lift].
    destruct (lookup_agent w agent_id) as [agent_config|e].
    + destruct (remote_flag agent_config) as [remote|e].
      * destruct (select_headers_cases w remote s) as (r & es & -> & Hes).
        destruct r as [h|].
        -- destruct (_build_azure_url _ _ _ _ _) as [url|e];
             cbv [ret]; eauto.
        -- cbv [ret]. eauto.
      * exists (Raise e), []. rewrite app_nil_r. destruct s. auto.
    + exists (Raise e), []. rewrite app_nil_r. destruct s. auto.
  - run_m. eexists _, [_]. split; reflexivity.
Qed.

(** The connector, path by path. *)
Lemma connect_cases (w : world) (agent_id : option json) (s : state) :
  exists r0 s1,
    prepare w agent_id s = (r0, s1) /\
    upstream s1 = upstream s /\
    filter is_connect (trace s1) = filter is_connect (trace s) /\
    match r0 with
    | Raise _ =>
        exists s', _connect_to_azure w agent_id s = (Ok None, s') /\
                   upstream s' = upstream s /\
                   filter is_connect (trace s') = filter is_connect (trace s)
    | Ok None => _connect_to_azure w agent_id s = (Ok None, s1)
    | Ok (Some (agent_config, url, h)) =>
        match w_connect w url h with
        | Raise _ =>
            exists s', _connect_to_azure w agent_id s = (Ok None, s') /\
                       upstream s' = upstream s
        | Ok _ =>
            match initial_config (w_config w) agent_config with
            | Raise _ =>
                exists s', _connect_to_azure w agent_id s = (Ok None, s') /\
                           upstream s' = Closed
            | Ok message =>
                match w_send_config w with
                | Ok _ =>
                    _connect_to_azure w agent_id s =
                      (Ok (Some tt),
                       mkState (trace s1 ++ [Connect url h; SendConfig message]) Open)
                | Raise e =>
                    exists s', _connect_to_azure w agent_id s = (Ok None, s') /\
                               upstream s' =
                                 (if is_ws_exception e then Open else Closed)
                end
            end
        end
    end.
Proof.
  destruct (prepare_cases w agent_id s) as (r0 & es & Hp & Hes).
  exists r0, (mkState (trace s ++ es) (upstream s)).
  split; [exact Hp|]. split; [reflexivity|].
  split; [cbn [trace]; now rewrite filter_app, Hes, app_nil_r|].
  unfold _connect_to_azure. cbv [bindM try_catch]. rewrite Hp.
  destruct r0 as [[[[agent_config url] h]|]|e].
  - unfold ws_connect. run_m.
    destruct (w_connect w url h) as [[]|e] eqn:Hc.
    + unfold _send_initial_config. run_m.
      destruct (initial_config (w_config w) agent_config) as [message|e] eqn:Hi.
      * destruct (w_send_config w) as [[]|e] eqn:Hs.
        -- tidy. reflexivity.
        -- match goal with
           | |- context [connect_failed w true ?e ?st] =>
               destruct (connect_failed_bound w e st) as (s' & -> & Hu)
           end.
           exists s'. split; [reflexivity|]. exact Hu.
      * match goal with
        | |- context [connect_failed w true ?e ?st] =>
            destruct (connect_failed_bound w e st) as (s' & -> & Hu)
        end.
        exists s'. split; [reflexivity|].
        rewrite (py_error_not_ws e (initial_config_raises _ _ _ Hi)) in Hu.
        exact Hu.
    + match goal with
      | |- context [connect_failed w false ?e ?st] =>
          destruct (connect_failed_unbound w e st) as (es' & -> & _)
      end.
      eexists. split; reflexivity.
  - reflexivity.
  - match goal with
    | |- context [connect_failed w false ?e ?st] =>
        destruct (connect_failed_unbound w e st) as (es' & -> & Hes')
    end.
    eexists. split; [reflexivity|]. split; [reflexivity|].
    cbn [trace]. now rewrite !filter_app, Hes, Hes', !app_nil_r.
Qed.

(** The connector hands a connection to its caller exactly when the
    preparation, the connect call, the building of the initial
    configuration and its send all went through; the send is then the
    last call made, right after the connect. *)
Lemma connect_returns_connection (w : world) (agent_id : option json)
      (s s' : state) :
  _connect_to_azure w agent_id s = (Ok (Some tt), s') <->
  exists agent_config url h message s1,
    prepare w agent_id s = (Ok (Some (agent_config, url, h)), s1) /\
    w_connect w url h = Ok tt /\
    initial_config (w_config w) agent_config = Ok message /\
    w_send_config w = Ok tt /\
    s' = mkState (trace s1 ++ [Connect url h; SendConfig message]) Open.
Proof.
  destruct (connect_cases w agent_id s) as (r0 & s1 & Hp & _ & _ & H).
  split.
  - intros Hrun.
    destruct r0 as [[[[agent_config url] h]|]|e].
    + destruct (w_connect w url h) as [[]|e] eqn:Hc.
      * destruct (initial_config (w_config w) agent_config) as [message|e] eqn:Hi.
        -- destruct (w_send_config w) as [[]|e] eqn:Hs.
           ++ rewrite H in Hrun. injection Hrun as <-.
              exists agent_config, url, h, message, s1. auto.
           ++ destruct H as (s2 & H & _). rewrite H in Hrun. discriminate.
        -- destruct H as (s2 & H & _). rewrite H in Hrun. discriminate.
      * destruct H as (s2 & H & _). rewrite H in Hrun. discriminate.
    + rewrite H in Hrun. discriminate.
    + destruct H as (s2 & H & _). rewrite H in Hrun. discriminate.
  - intros (agent_config & url & h & message & s1' & Hp' & Hc & Hi & Hs & ->).
    rewrite Hp in Hp'. injection Hp' as -> ->.
    now rewrite Hc, Hi, Hs in H.
Qed.

(** After a send of the initial configuration that fails with a
    WebSocket exception the connector returns failure and the
    connection it opened stays open. *)
Lemma connect_failed_send_open (w : world) (agent_id : option json)
      (agent_config : option json) (url : string) (h : headers)
      (message : json) (e : exn) (s s1 : state) :
  prepare w agent_id s = (Ok (Some (agent_config, url, h)), s1) ->
  w_connect w url h = Ok tt ->
  initial_config (w_config w) agent_config = Ok message ->
  w_send_config w = Raise e ->
  is_ws_exception e = true ->
  exists s', _connect_to_azure w agent_id s = (Ok None, s') /\ upstream s' = Open.
Proof.
  intros Hp' Hc Hi Hs Hws.
  destruct (connect_cases w agent_id s) as (r0 & s1' & Hp & _ & _ & H).
  rewrite Hp' in Hp. injection Hp as <- <-.
  rewrite Hc, Hi, Hs, Hws in H. exact H.
Qed.


(** ** The connection handler *)

Lemma emit_all_run (es : list event) (s : state) :
  emit_all es s = (Ok tt, mkState (trace s ++ es) (upstream s)).
Proof.
  revert s. induction es as [|e es IH]; intros s; simpl.
  - unfold ret. rewrite app_nil_r. now destruct s.
  - cbv [bindM emit]. rewrite IH. tidy. reflexivity.
Qed.

(** When the client names the agent (no fixed agent identifier), the
    handler returns normally as long as [close] does; unless the send
    of the initial configuration fails with a WebSocket exception it
    leaves no open upstream connection; a failed connect is reported
    to the client by an error frame, the last call made. *)
Lemma handle_connection_returns (w : world) :
  configured (cfg_agent_id (w_config w)) = false ->
  w_close w = Ok tt ->
  send_not_websocket_failure w ->
  exists s',
    handle_connection w initial_state = (Ok tt, s') /\
    upstream s' <> Open /\
    (upstream s' = NotOpened ->
     exists tr,
       trace s' =
         (tr ++ [ClientSend (error_frame "Failed to connect to Azure Voice API")])%list).
Proof.
  intros Hid Hclose Hsend.
  unfold handle_connection, choose_agent. rewrite Hid.
  destruct (identification_returns (w_first w)) as [agent_id Hag].
  cbv [bindM lift attempt]. rewrite Hag.
  destruct (connect_cases w agent_id initial_state)
    as (r0 & s1 & Hp & Hu1 & _ & H).
  assert (Hc : exists r s2,
             _connect_to_azure w agent_id initial_state = (Ok r, s2) /\
             (r = None -> upstream s2 <> Open)).
  { destruct r0 as [[[[agent_config url] h]|]|e].
    - destruct (w_connect w url h) as [[]|e].
      + destruct (initial_config (w_config w) agent_config) as [message|e].
        * unfold send_not_websocket_failure in Hsend.
          destruct (w_send_config w) as [[]|e].
          -- eexists _, _. split; [exact H|]. discriminate.
          -- destruct H as (s' & H & Hu). exists None, s'.
             split; [exact H|]. intros _. rewrite Hu.
             destruct e; try contradiction; discriminate.
        * destruct H as (s' & H & Hu). exists None, s'.
          split; [exact H|]. intros _. rewrite Hu. discriminate.
      + destruct H as (s' & H & Hu). exists None, s'.
        split; [exact H|]. intros _. rewrite Hu. discriminate.
    - exists None, s1. split; [exact H|]. intros _. rewrite Hu1. discriminate.
    - destruct H as (s' & H & Hu & _). exists None, s'.
      split; [exact H|]. intros _. rewrite Hu. discriminate. }
  destruct Hc as (r & s2 & Hc & Hnone).
  rewrite Hc. destruct r as [[]|].
  - unfold _handle_message_forwarding, _send_message, ws_close.
    cbv [bindM try_catch emit set_link lift].
    rewrite !emit_all_run. cbn [trace upstream]. rewrite Hclose.
    eexists. split; [reflexivity|]. cbn [upstream].
    split; discriminate.
  - run_m. eexists. split; [reflexivity|]. cbn [upstream trace].
    split; [now apply Hnone|]. intros _. eauto.
Qed.

(** C7: with a fixed agent identifier configured, the agent set-up call
    is made before the [try] block; when it raises, the exception leaves
    the handler and nothing is sent to the client. *)
Theorem C7_setup_failure_escapes :
  handle_connection failing_setup_world initial_state =
    (Raise (OtherException "agent service unavailable"),
     mkState [CreateOrGetAgent] NotOpened) /\
  filter is_client_send
    (trace (snd (handle_connection failing_setup_world initial_state))) = [].
Proof.
  split; reflexivity.
Qed.

(** * Further properties *)

(** ** Client to upstream: the loop *)

(** What a re-serialized payload comes from. *)
Lemma strip_dumps_inv (f : frame) (v : json) :
  strip_agent_id f = Ok (Dumps v) ->
  exists fields sess a,
    loads f = Ok (JObj fields) /\
    Py.assoc "type" fields = Some (JStr "session.update") /\
    Py.assoc "session" fields = Some (JObj sess) /\
    Py.assoc "agent_id" sess = Some a /\
    v = JObj (Py.update "session" (JObj (Py.remove "agent_id" sess)) fields).
Proof.
  unfold strip_agent_id, strip_agent_id_body.
  destruct (loads f) as [msg|e]; cbn [bind].
  2:{ destruct e; discriminate. }
  destruct msg; cbn [Py.get bind]; try discriminate.
  destruct (Py.eq_str _ "session.update") eqn:Hty; [|discriminate].
  apply eq_str_true in Hty.
  destruct (Py.assoc "type" fields) as [ty|] eqn:Hat; [|discriminate].
  subst ty. cbn [Py.contains bind Py.getitem].
  destruct (Py.assoc "session" fields) as [session|] eqn:Has; [|discriminate].
  cbn [bind].
  destruct session; cbn [Py.contains bind Py.delitem]; try discriminate.
  - destruct (Py.is_substring "agent_id" s); discriminate.
  - destruct (existsb _ items); discriminate.
  - destruct (Py.assoc "agent_id" fields0) as [a|] eqn:Haa; [|discriminate].
    cbn [bind Py.setitem]. intros H. injection H as <-.
    exists fields, fields0, a. auto.
Qed.

(** X1: when a session update whose session object has an agent_id
    comes in and the send goes through, the loop sends the message
    re-serialized, with agent_id gone from the session, every other
    session field and every other top-level field bound as before and
    the top-level keys in their original order, and goes on with the
    next frame. *)
Theorem X1_loop_strips_agent_id (f : frame) (fields sess : list (string * json))
    (a : json) (rest : list client_turn) :
  loads f = Ok (JObj fields) ->
  Py.assoc "type" fields = Some (JStr "session.update") ->
  Py.assoc "session" fields = Some (JObj sess) ->
  Py.assoc "agent_id" sess = Some a ->
  exists fields' sess',
    _forward_client_to_azure (client_sends f :: rest)
    = Dumps (JObj fields') :: _forward_client_to_azure rest /\
    Py.assoc "session" fields' = Some (JObj sess') /\
    Py.assoc "agent_id" sess' = None /\
    (forall k, k <> "agent_id" -> Py.assoc k sess' = Py.assoc k sess) /\
    (forall k, k <> "session" -> Py.assoc k fields' = Py.assoc k fields) /\
    map fst fields' = map fst fields.
Proof.
  intros Hl Hty Hs Ha.
  destruct (strip_removes_agent_id f fields sess a Hl Hty Hs Ha)
    as (fields' & sess' & Hstrip & H).
  exists fields', sess'. split; [|exact H].
  cbn [_forward_client_to_azure client_sends received upstream_send].
  now rewrite Hstrip.
Qed.

Lemma X1_witness :
  _forward_client_to_azure [client_sends update_with_voice_frame]
  = [Dumps (JObj [("type", JStr "session.update");
                  ("session", JObj [("voice", JStr "v")])])].
Proof.
  destruct (X1_loop_strips_agent_id update_with_voice_frame
              [("type", JStr "session.update");
               ("session", JObj [("agent_id", JStr "X"); ("voice", JStr "v")])]
              [("agent_id", JStr "X"); ("voice", JStr "v")] (JStr "X") []
              eq_refl eq_refl eq_refl eq_refl)
    as (fields' & sess' & Hrun & _).
  reflexivity.
Defined.

(** X2: a frame that is not JSON, a JSON object of another type, a
    session update without session entry, or one whose session object
    has no agent_id, is sent exactly as received (never re-serialized)
    when the send goes through, and the loop goes on. *)
Theorem X2_loop_forwards_verbatim (f : frame) (rest : list client_turn) :
  loads f = Raise JSONDecodeError \/
  (exists fields,
      loads f = Ok (JObj fields) /\
      (Py.assoc "type" fields <> Some (JStr "session.update") \/
       Py.assoc "session" fields = None \/
       exists sess, Py.assoc "session" fields = Some (JObj sess) /\
                    Py.assoc "agent_id" sess = None)) ->
  _forward_client_to_azure (client_sends f :: rest)
  = Verbatim (raw f) :: _forward_client_to_azure rest.
Proof.
  intros H.
  cbn [_forward_client_to_azure client_sends received upstream_send].
  destruct H as [H | (fields & Hl & H)].
  - now rewrite (strip_keeps_unparsed f H).
  - now rewrite (strip_keeps_other_objects f fields Hl H).
Qed.

Lemma X2_witness :
  _forward_client_to_azure [client_sends (garbage "not json"); client_sends append_frame]
  = [Verbatim "not json"; Verbatim (raw append_frame)].
Proof.
  etransitivity; [|reflexivity].
  exact (X2_loop_forwards_verbatim (garbage "not json")
           [client_sends append_frame] (or_introl eq_refl)).
Defined.

(** X3: the loop stops at the end of the client stream and at a failing
    receive: whatever comes after a turn in which [receive] gives [None]
    or raises is never forwarded.  It also stops at a failing send:
    nothing after that turn is forwarded. *)
Theorem X3_loop_stops (pre post : list client_turn) (t : client_turn) :
  (received t = Ok None \/ (exists e, received t = Raise e) ->
   _forward_client_to_azure (pre ++ t :: post) = _forward_client_to_azure pre) /\
  ((exists e, upstream_send t = Raise e) ->
   _forward_client_to_azure (pre ++ t :: post)
   = _forward_client_to_azure (pre ++ [t])).
Proof.
  split.
  - intros Hend. induction pre as [|t0 pre IH]; cbn [app _forward_client_to_azure].
    + destruct Hend as [-> | [e ->]]; reflexivity.
    + destruct (received t0) as [[f|]|e]; try reflexivity.
      destruct (strip_agent_id f); try reflexivity.
      destruct (upstream_send t0); [now rewrite IH | reflexivity].
  - intros [e He]. induction pre as [|t0 pre IH]; cbn [app _forward_client_to_azure].
    + rewrite He. reflexivity.
    + destruct (received t0) as [[f|]|e']; try reflexivity.
      destruct (strip_agent_id f); try reflexivity.
      destruct (upstream_send t0); [now rewrite IH | reflexivity].
Qed.

Lemma X3_witness :
  _forward_client_to_azure
    [client_sends append_frame; client_closes; client_sends append_frame]
  = [Verbatim (raw append_frame)] /\
  _forward_client_to_azure
    [client_send_fails append_frame; client_sends append_frame]
  = [Verbatim (raw append_frame)].
Proof.
  split.
  - etransitivity; [|reflexivity].
    exact (proj1 (X3_loop_stops [client_sends append_frame]
                    [client_sends append_frame] client_closes)
             (or_introl eq_refl)).
  - etransitivity; [|reflexivity].
    exact (proj2 (X3_loop_stops [] [client_sends append_frame]
                    (client_send_fails append_frame))
             (ex_intro _ ConnectionClosed eq_refl)).
Defined.

(** X4: the loop never sends more payloads than frames came in, and
    every payload it sends is what the stripping code makes of a frame
    that was received; a payload that was re-serialized comes from a
    session update and carries no agent_id in its session. *)
Theorem X4_loop_sends_only_received (turns : list client_turn) :
  (length (_forward_client_to_azure turns) <= length (delivered turns))%nat /\
  Forall (fun p => exists f, In f (delivered turns) /\ strip_agent_id f = Ok p)
         (_forward_client_to_azure turns) /\
  (forall v, In (Dumps v) (_forward_client_to_azure turns) ->
             exists fields sess,
               v = JObj fields /\
               Py.assoc "type" fields = Some (JStr "session.update") /\
               Py.assoc "session" fields = Some (JObj sess) /\
               Py.assoc "agent_id" sess = None).
Proof.
  assert (Hall : Forall (fun p => exists f, In f (delivered turns) /\
                                            strip_agent_id f = Ok p)
                        (_forward_client_to_azure turns)).
  { induction turns as [|t turns IH]; cbn [_forward_client_to_azure delivered].
    - constructor.
    - destruct (received t) as [[f|]|e]; try constructor.
      destruct (strip_agent_id f) as [p|e] eqn:Hs; try constructor.
      assert (Hp : exists f0, In f0 (f :: delivered turns) /\ strip_agent_id f0 = Ok p)
        by (exists f; split; [now left | exact Hs]).
      destruct (upstream_send t).
      + constructor; [exact Hp|].
        eapply Forall_impl; [|exact IH].
        intros p0 (f0 & Hin & H0). exists f0. split; [now right | exact H0].
      + constructor; [exact Hp | constructor]. }
  split; [|split; [exact Hall|]].
  - clear Hall.
    induction turns as [|t turns IH]; cbn [_forward_client_to_azure delivered].
    + apply le_n.
    + destruct (received t) as [[f|]|e]; cbn [length]; try apply Nat.le_0_l.
      destruct (strip_agent_id f) as [p|e]; cbn [length]; [|apply Nat.le_0_l].
      destruct (upstream_send t); cbn [length].
      * now apply le_n_S.
      * apply le_n_S, Nat.le_0_l.
  - intros v Hin. rewrite Forall_forall in Hall.
    destruct (Hall _ Hin) as (f & _ & Hs).
    apply strip_dumps_inv in Hs as (fields & sess & a & _ & Hty & Hse & _ & ->).
    exists (Py.update "session" (JObj (Py.remove "agent_id" sess)) fields),
           (Py.remove "agent_id" sess).
    split; [reflexivity|]. split; [|split].
    + rewrite assoc_update_other; [exact Hty | discriminate].
    + apply assoc_update_same.
    + apply assoc_remove_same.
Qed.

Lemma X4_witness :
  exists fields sess,
    JObj [("type", JStr "session.update"); ("session", JObj [("voice", JStr "v")])]
    = JObj fields /\
    Py.assoc "type" fields = Some (JStr "session.update") /\
    Py.assoc "session" fields = Some (JObj sess) /\
    Py.assoc "agent_id" sess = None.
Proof.
  apply (proj2 (proj2 (X4_loop_sends_only_received
                         [client_sends update_with_voice_frame]))).
  left. reflexivity.
Defined.

(** ** Upstream to client: the loop *)

(** The deduplication block on a frame the loop can handle. *)
Lemma dedup_by_shape (json_dumps : json -> string) (py_hash : string -> Z)
      (last : option Z) (f : frame) :
  (forall session,
      upstream_shape f = Some (Some session) ->
      dedup json_dumps py_hash last f =
        if (match last with
            | Some h' => Z.eqb (session_hash json_dumps py_hash session) h'
            | None => false
            end)
        then Ok (Suppressed, last)
        else Ok (Forwarded, Some (session_hash json_dumps py_hash session))) /\
  (upstream_shape f = Some None ->
   dedup json_dumps py_hash last f = Ok (Forwarded, last)).
Proof.
  unfold upstream_shape.
  destruct (loads f) as [msg|e] eqn:Hl.
  - destruct msg; try (split; [intros ?|]; discriminate).
    destruct (Py.assoc "type" fields) as [ty|] eqn:Hty.
    + destruct ty; try (split; [intros ?|]; discriminate).
      destruct (String.eqb s "session.updated") eqn:Hs.
      * apply String.eqb_eq in Hs. subst s.
        destruct (session_of fields) eqn:Hso;
          try (split; [intros ?|]; discriminate).
        split; [|discriminate].
        intros session H. injection H as <-.
        now apply dedup_session_updated with fields.
      * split; [intros ?; discriminate|]. intros _.
        apply dedup_other_type with fields s; auto.
        now apply String.eqb_neq.
    + split; [intros ?; discriminate|]. intros _.
      apply dedup_other_type with fields ""; auto. discriminate.
  - destruct e; try (split; [intros ?|]; discriminate).
    split; [intros ?; discriminate|]. intros _. now apply dedup_not_json.
Qed.

Lemma no_repeat_deduplicated (h : json -> Z) (last : option Z) (fs : list frame) :
  no_repeat last (update_hashes h (deduplicated h last fs)).
Proof.
  revert last. induction fs as [|f fs IH]; intros last; cbn [deduplicated].
  - exact I.
  - destruct (upstream_shape f) as [[session|]|] eqn:Hshape.
    + destruct last as [h'|].
      * destruct (Z.eqb (h session) h') eqn:Heq; [apply IH|].
        cbn [update_hashes]. rewrite Hshape. cbn [no_repeat].
        split; [|apply IH].
        apply Z.eqb_neq in Heq. congruence.
      * cbn [update_hashes]. rewrite Hshape. cbn [no_repeat].
        split; [discriminate | apply IH].
    + cbn [update_hashes]. rewrite Hshape. apply IH.
    + cbn [update_hashes]. rewrite Hshape. apply IH.
Qed.

Lemma deduplicated_subseq (h : json -> Z) (last : option Z) (fs : list frame) :
  subseq (deduplicated h last fs) fs.
Proof.
  revert last. induction fs as [|f fs IH]; intros last; cbn [deduplicated].
  - constructor.
  - destruct (upstream_shape f) as [[session|]|].
    + destruct (match last with Some h' => Z.eqb (h session) h' | None => false end).
      * apply subseq_skip, IH.
      * apply subseq_keep, IH.
    + apply subseq_keep, IH.
    + apply subseq_keep, IH.
Qed.

Lemma deduplicated_keeps_others (h : json -> Z) (last : option Z)
      (fs : list frame) (f : frame) :
  In f fs -> upstream_shape f = Some None -> In f (deduplicated h last fs).
Proof.
  revert last. induction fs as [|f0 fs IH]; intros last Hin Hshape; [contradiction|].
  cbn [deduplicated]. destruct Hin as [->|Hin].
  - rewrite Hshape. now left.
  - destruct (upstream_shape f0) as [[session|]|].
    + destruct (match last with Some h' => Z.eqb (h session) h' | None => false end);
        [|right]; now apply IH.
    + right. now apply IH.
    + right. now apply IH.
Qed.

(** X5: on a stream of frames the loop can handle (not JSON, or an
    object with a type string and, for a session update notice, an
    object as session content), with every send going through, the loop
    never stops early: it forwards, verbatim and in order, every frame
    except the session-updated frames whose session hash is that of the
    session-updated frame forwarded before.  So no two session-updated
    frames forwarded one after the other (other frames in between or
    not) have the same hash, and every frame of another kind is
    forwarded. *)
Theorem X5_upstream_loop_is_a_filter (json_dumps : json -> string)
    (py_hash : string -> Z) (fs : list frame) :
  Forall (fun f => upstream_shape f <> None) fs ->
  let h := session_hash json_dumps py_hash in
  let out := deduplicated h None fs in
  _forward_azure_to_client json_dumps py_hash (map upstream_sends fs)
  = map (fun f => Verbatim (raw f)) out /\
  subseq out fs /\
  no_repeat None (update_hashes h out) /\
  (forall f, In f fs -> upstream_shape f = Some None -> In f out).
Proof.
  intros Hok. cbv zeta.
  split; [|split; [apply deduplicated_subseq|
                   split; [apply no_repeat_deduplicated|]]].
  - unfold _forward_azure_to_client. generalize (@None Z) as last.
    induction Hok as [|f fs Hf _ IH]; intros last; [reflexivity|].
    cbn [map forward_from deduplicated upstream_sends yielded client_send].
    destruct (dedup_by_shape json_dumps py_hash last f) as [Hupd Hother].
    destruct (upstream_shape f) as [[session|]|]; [| |congruence].
    + rewrite (Hupd session eq_refl).
      destruct (match last with
                | Some h' => Z.eqb (session_hash json_dumps py_hash session) h'
                | None => false
                end).
      * apply IH.
      * cbn [map]. now rewrite IH.
    + rewrite (Hother eq_refl). cbn [map]. now rewrite IH.
  - intros f Hin Hshape. now apply deduplicated_keeps_others.
Qed.

Lemma X5_witness :
  _forward_azure_to_client sample_dumps sample_hash
    (map upstream_sends
         [updated_frame "a"; delta_frame; updated_frame "a"; updated_frame "b"])
  = [Verbatim (raw (updated_frame "a")); Verbatim (raw delta_frame);
     Verbatim (raw (updated_frame "b"))].
Proof.
  exact (proj1 (X5_upstream_loop_is_a_filter sample_dumps sample_hash
                  [updated_frame "a"; delta_frame; updated_frame "a"; updated_frame "b"]
                  ltac:(repeat constructor; intros H; vm_compute in H;
                        discriminate H))).
Defined.

(** X6: the deduplication looks one session-updated frame back, not
    further: of three session-updated frames with session contents A,
    B, A (hash of A different from hash of B) all three are forwarded. *)
Theorem X6_only_previous_update_counts (json_dumps : json -> string)
    (py_hash : string -> Z) (f1 f2 f3 : frame) (a b : json) :
  upstream_shape f1 = Some (Some a) ->
  upstream_shape f2 = Some (Some b) ->
  upstream_shape f3 = Some (Some a) ->
  session_hash json_dumps py_hash a <> session_hash json_dumps py_hash b ->
  _forward_azure_to_client json_dumps py_hash
    [upstream_sends f1; upstream_sends f2; upstream_sends f3]
  = [Verbatim (raw f1); Verbatim (raw f2); Verbatim (raw f3)].
Proof.
  intros H1 H2 H3 Hne.
  unfold _forward_azure_to_client.
  cbn [forward_from upstream_sends yielded client_send].
  rewrite (proj1 (dedup_by_shape json_dumps py_hash None f1) a H1).
  cbn [forward_from upstream_sends yielded client_send].
  rewrite (proj1 (dedup_by_shape json_dumps py_hash _ f2) b H2).
  assert (Hba : Z.eqb (session_hash json_dumps py_hash b)
                      (session_hash json_dumps py_hash a) = false).
  { apply Z.eqb_neq. congruence. }
  rewrite Hba.
  rewrite (proj1 (dedup_by_shape json_dumps py_hash _ f3) a H3).
  apply Z.eqb_neq in Hne. rewrite Hne. reflexivity.
Qed.

Lemma X6_witness :
  _forward_azure_to_client sample_dumps sample_hash
    [upstream_sends (updated_frame "a"); upstream_sends (updated_frame "b");
     upstream_sends (updated_frame "a")]
  = [Verbatim (raw (updated_frame "a")); Verbatim (raw (updated_frame "b"));
     Verbatim (raw (updated_frame "a"))].
Proof.
  exact (X6_only_previous_update_counts sample_dumps sample_hash
           (updated_frame "a") (updated_frame "b") (updated_frame "a")
           (JObj [("voice", JStr "a")]) (JObj [("voice", JStr "b")])
           eq_refl eq_refl eq_refl
           ltac:(intros H; vm_compute in H; discriminate H)).
Defined.

(** X7: a session-updated frame that follows one with the same session
    content up to the order of its keys (at any depth), or more
    generally with the same session hash, leaves no trace: the loop
    behaves as if that frame had never come. *)
Theorem X7_duplicate_update_leaves_no_trace (json_dumps : json -> string)
    (py_hash : string -> Z) (f1 f2 : frame) (a b : json)
    (rest : list upstream_turn) :
  upstream_shape f1 = Some (Some a) ->
  upstream_shape f2 = Some (Some b) ->
  same_content a b \/
  session_hash json_dumps py_hash a = session_hash json_dumps py_hash b ->
  _forward_azure_to_client json_dumps py_hash
    (upstream_sends f1 :: upstream_sends f2 :: rest)
  = _forward_azure_to_client json_dumps py_hash (upstream_sends f1 :: rest).
Proof.
  intros H1 H2 Hsame.
  assert (Heq : session_hash json_dumps py_hash a = session_hash json_dumps py_hash b).
  { destruct Hsame as [Hs|Hh]; [|exact Hh].
    unfold session_hash. now rewrite (sort_keys_canonical a b Hs). }
  unfold _forward_azure_to_client.
  cbn [forward_from upstream_sends yielded client_send].
  rewrite (proj1 (dedup_by_shape json_dumps py_hash None f1) a H1).
  cbn [forward_from upstream_sends yielded client_send].
  rewrite (proj1 (dedup_by_shape json_dumps py_hash _ f2) b H2).
  rewrite Heq, Z.eqb_refl. reflexivity.
Qed.

Lemma X7_witness :
  _forward_azure_to_client sample_dumps sample_hash
    [upstream_sends updated_ab_frame; upstream_sends updated_ba_frame]
  = [Verbatim (raw updated_ab_frame)].
Proof.
  exact (X7_duplicate_update_leaves_no_trace sample_dumps sample_hash
           updated_ab_frame updated_ba_frame
           (JObj [("a", JInt 1); ("b", JInt 2)])
           (JObj [("b", JInt 2); ("a", JInt 1)]) []
           eq_refl eq_refl
           (or_introl
              (same_reordered [("a", JInt 1); ("b", JInt 2)]
                              [("b", JInt 2); ("a", JInt 1)]
                              (perm_swap _ _ _)
                              ltac:(repeat constructor; simpl;
                                    intuition discriminate)))).
Defined.

Lemma subseq_nil_l {A : Type} (l : list A) : subseq [] l.
Proof. induction l; constructor; assumption. Qed.

(** X8: whatever comes from upstream, the loop only ever hands the
    client frames it received, byte for byte, each at most once and in
    the order received. *)
Theorem X8_upstream_loop_forwards_verbatim (json_dumps : json -> string)
    (py_hash : string -> Z) (turns : list upstream_turn) :
  exists fs,
    subseq fs (yielded_frames turns) /\
    _forward_azure_to_client json_dumps py_hash turns
    = map (fun f => Verbatim (raw f)) fs.
Proof.
  unfold _forward_azure_to_client. generalize (@None Z) as last.
  induction turns as [|t turns IH]; intros last;
    cbn [forward_from yielded_frames].
  - exists []. split; constructor.
  - destruct (yielded t) as [f|e].
    + destruct (dedup json_dumps py_hash last f) as [[[|] last']|e].
      * destruct (client_send t).
        -- destruct (IH last') as (fs & Hsub & ->).
           exists (f :: fs). split; [now constructor | reflexivity].
        -- exists [f]. split; [|reflexivity].
           apply subseq_keep, subseq_nil_l.
      * destruct (IH last') as (fs & Hsub & ->).
        exists fs. split; [now constructor | reflexivity].
      * exists []. split; [apply subseq_nil_l | reflexivity].
    + exists []. split; [apply subseq_nil_l | reflexivity].
Qed.

(** X9: on a stream of client frames the stripping code can handle,
    with every send going through, the loop never stops early: it sends
    one payload per frame, in order, each being what the stripping code
    makes of that frame. *)
Theorem X9_client_loop_forwards_all (fs : list frame) :
  Forall client_shape_ok fs ->
  exists ps,
    Forall2 (fun f p => strip_agent_id f = Ok p) fs ps /\
    _forward_client_to_azure (map client_sends fs) = ps.
Proof.
  induction 1 as [|f fs Hf _ (ps & Hall & Hrun)].
  - exists []. split; constructor.
  - assert (Hp : exists p, strip_agent_id f = Ok p).
    { destruct Hf as [Hl | (fields & Hl & H)].
      - eexists. now apply strip_keeps_unparsed.
      - destruct H as [H | [H | (sess & Hs)]].
        + eexists. apply strip_keeps_other_objects with fields; auto.
        + eexists. apply strip_keeps_other_objects with fields; auto.
        + destruct (Py.assoc "type" fields) as [ty|] eqn:Hty.
          * destruct (Py.eq_str ty "session.update") eqn:Hu.
            -- apply eq_str_true in Hu. subst ty.
               destruct (Py.assoc "agent_id" sess) as [a|] eqn:Ha.
               ++ destruct (strip_removes_agent_id f fields sess a Hl Hty Hs Ha)
                    as (fields' & _ & Hstrip & _).
                  eauto.
               ++ eexists. apply strip_keeps_other_objects with fields; eauto.
            -- eexists. apply strip_keeps_other_objects with fields; auto.
               left. rewrite Hty. intros Heq. injection Heq as ->.
               discriminate Hu.
          * eexists. apply strip_keeps_other_objects with fields; auto.
            left. rewrite Hty. discriminate. }
    destruct Hp as [p Hp]. exists (p :: ps). split; [now constructor|].
    cbn [map _forward_client_to_azure client_sends received upstream_send].
    now rewrite Hp, Hrun.
Qed.

Lemma X9_witness :
  exists ps,
    Forall2 (fun f p => strip_agent_id f = Ok p)
            [update_with_voice_frame; garbage "not json"; append_frame] ps /\
    _forward_client_to_azure
      (map client_sends [update_with_voice_frame; garbage "not json"; append_frame])
    = ps.
Proof.
  apply X9_client_loop_forwards_all.
  apply Forall_cons; [|apply Forall_cons; [|apply Forall_cons; [|apply Forall_nil]]].
  - right. eexists. split; [reflexivity|]. right. right. eexists. reflexivity.
  - left. reflexivity.
  - right. eexists. split; [reflexivity|]. left. discriminate.
Defined.

(** ** Session configuration: missing entries *)

(** The initial configuration for an agent that is not remote. *)
Lemma local_config_run (cfg : config) (fields : list (string * json)) :
  is_local fields ->
  initial_config cfg (Some (JObj fields)) =
    match Py.assoc "instructions" fields,
          Py.assoc "temperature" fields,
          Py.assoc "max_tokens" fields with
    | Some i, Some t, Some m =>
        Ok (JObj [("type", JStr "session.update");
                  ("session",
                   JObj (default_session cfg ++
                         [("model", model_of cfg fields);
                          ("instructions", i);
                          ("temperature", t);
                          ("max_response_output_tokens", m)]))])
    | _, _, _ => Raise KeyError
    end.
Proof.
  intros [Hne Hl].
  assert (Hflag : Py.truthy (match Py.assoc "is_azure_agent" fields with
                             | Some x => x
                             | None => JNull
                             end) = false).
  { destruct (Py.assoc "is_azure_agent" fields); [exact Hl | reflexivity]. }
  unfold initial_config. rewrite (truthy_obj_nonempty fields Hne).
  cbn [Py.get bind]. rewrite Hflag. cbn [negb].
  unfold _add_local_agent_config, model_of. cbn [Py.get Py.getitem bind].
  destruct (Py.assoc "instructions" fields) as [i|]; [|reflexivity].
  destruct (Py.assoc "temperature" fields) as [t|]; [|reflexivity].
  destruct (Py.assoc "max_tokens" fields) as [m|]; [|reflexivity].
  reflexivity.
Qed.

(** X10: for an agent configuration that is present and not remote,
    building the initial configuration fails exactly when instructions,
    temperature or max_tokens is missing, and then with [KeyError]; a
    missing model never makes it fail. *)
Theorem X10_local_config_needs_three_entries (cfg : config)
    (fields : list (string * json)) :
  is_local fields ->
  (Py.assoc "instructions" fields = None \/
   Py.assoc "temperature" fields = None \/
   Py.assoc "max_tokens" fields = None <->
   initial_config cfg (Some (JObj fields)) = Raise KeyError) /\
  ((exists message, initial_config cfg (Some (JObj fields)) = Ok message) \/
   initial_config cfg (Some (JObj fields)) = Raise KeyError).
Proof.
  intros Hlocal. rewrite (local_config_run cfg fields Hlocal).
  destruct (Py.assoc "instructions" fields) as [i|].
  2:{ split; [split; intros _; [reflexivity | now left] | right; reflexivity]. }
  destruct (Py.assoc "temperature" fields) as [t|].
  2:{ split; [split; intros _; [reflexivity | right; now left] | right; reflexivity]. }
  destruct (Py.assoc "max_tokens" fields) as [m|].
  2:{ split; [split; intros _; [reflexivity | right; now right] | right; reflexivity]. }
  split.
  - split; [intros [H|[H|H]]; discriminate H | intros H; discriminate H].
  - left. eexists. reflexivity.
Qed.

Lemma X10_witness :
  Py.assoc "instructions" bare_agent = None \/
  Py.assoc "temperature" bare_agent = None \/
  Py.assoc "max_tokens" bare_agent = None <->
  initial_config sample_config (Some (JObj bare_agent)) = Raise KeyError.
Proof.
  assert (H : is_local bare_agent) by (split; [discriminate | exact I]).
  destruct (X10_local_config_needs_three_entries sample_config bare_agent H)
    as [Hiff _].
  exact Hiff.
Defined.

(** ** The connector: what it calls *)

Lemma quiet_no_connect (es : list event) :
  forallb is_quiet es = true -> filter is_connect es = [].
Proof.
  induction es as [|e es IH]; [reflexivity|].
  cbn [forallb filter]. intros H. apply andb_prop in H as [He Hes].
  destruct e; try discriminate; cbn [is_connect]; now apply IH.
Qed.

Lemma quiet_no_close (es : list event) :
  forallb is_quiet es = true -> closes es = 0%nat.
Proof.
  unfold closes. induction es as [|e es IH]; [reflexivity|].
  cbn [forallb filter]. intros H. apply andb_prop in H as [He Hes].
  destruct e; try discriminate; now apply IH.
Qed.

Lemma select_headers_full (w : world) (remote : bool) (s : state) :
  exists (r : option headers) (es : list event),
    select_headers w remote s = (Ok r, mkState (trace s ++ es) (upstream s)) /\
    forallb is_quiet es = true /\
    (forall h, r = Some h ->
       (remote = true /\
        exists t, h = Bearer t /\
                  (w_get_token w PRIMARY_SCOPE = Ok t \/
                   ((exists e, w_get_token w PRIMARY_SCOPE = Raise e) /\
                    w_get_token w FALLBACK_SCOPE = Ok t))) \/
       (remote = false /\
        h = ApiKey (cfg_azure_openai_api_key (w_config w)) /\
        configured (cfg_azure_openai_api_key (w_config w)) = true)).
Proof.
  unfold select_headers.
  destruct remote.
  - destruct (configured (cfg_azure_ai_project_name (w_config w))); cbn [negb].
    + run_m.
      destruct (w_get_token w PRIMARY_SCOPE) as [t|e] eqn:H1.
      * exists (Some (Bearer t)), [GetToken PRIMARY_SCOPE].
        split; [reflexivity|]. split; [reflexivity|].
        intros h Hh. injection Hh as <-. left. split; [reflexivity|].
        exists t. auto.
      * run_m. destruct (w_get_token w FALLBACK_SCOPE) as [t|e2] eqn:H2.
        -- exists (Some (Bearer t)),
             [GetToken PRIMARY_SCOPE; LogError "Failed to get Azure AD token: %s";
              GetToken FALLBACK_SCOPE].
           tidy. split; [reflexivity|]. split; [reflexivity|].
           intros h Hh. injection Hh as <-. left. split; [reflexivity|].
           exists t. split; [reflexivity|]. right. eauto.
        -- exists None,
             [GetToken PRIMARY_SCOPE; LogError "Failed to get Azure AD token: %s";
              GetToken FALLBACK_SCOPE;
              LogError "Failed to get Azure AD token with fallback scope: %s"].
           tidy. split; [reflexivity|]. split; [reflexivity|]. discriminate.
    + run_m. eexists None, [_]. split; [reflexivity|].
      split; [reflexivity | discriminate].
  - destruct (configured (cfg_azure_openai_api_key (w_config w))) eqn:Hk; cbn [negb].
    + run_m. exists (Some (ApiKey (cfg_azure_openai_api_key (w_config w)))), [].
      rewrite app_nil_r. destruct s. split; [reflexivity|]. split; [reflexivity|].
      intros h Hh. injection Hh as <-. right. auto.
    + run_m. eexists None, [_]. split; [reflexivity|].
      split; [reflexivity | discriminate].
Qed.

Lemma prepare_full (w : world) (agent_id : option json) (s : state) :
  exists r0 es,
    prepare w agent_id s = (r0, mkState (trace s ++ es) (upstream s)) /\
    forallb is_quiet es = true /\
    (forall agent_config url h,
        r0 = Ok (Some (agent_config, url, h)) ->
        configured (cfg_azure_ai_resource_name (w_config w)) = true /\
        lookup_agent w agent_id = Ok agent_config /\
        _build_azure_url (w_repr w) (w_config w) (w_uuid4 w) agent_id agent_config
        = Ok url /\
        credential_for w agent_config h).
Proof.
  unfold prepare.
  destruct (configured (cfg_azure_ai_resource_name (w_config w))) eqn:Hres;
    cbn [negb].
  - cbv [bindM lift].
    destruct (lookup_agent w agent_id) as [agent_config|e] eqn:Hlook.
    + destruct (remote_flag agent_config) as [remote|e] eqn:Hflag.
      * destruct (select_headers_full w remote s) as (r & es & -> & Hq & Hh).
        destruct r as [h|].
        -- destruct (_build_azure_url _ _ _ _ _) as [url|e] eqn:Hurl; cbv [ret].
           ++ eexists _, es. split; [reflexivity|]. split; [exact Hq|].
              intros ac url' h' Heq. injection Heq as <- <- <-.
              split; [reflexivity|]. split; [reflexivity|]. split; [exact Hurl|].
              unfold credential_for. rewrite Hflag.
              destruct (Hh h eq_refl) as [[-> H]|[-> H]]; [left | right]; auto.
           ++ eexists _, es. split; [reflexivity|]. split; [exact Hq|]. discriminate.
        -- cbv [ret]. eexists _, es. split; [reflexivity|].
           split; [exact Hq|]. discriminate.
      * exists (Raise e), []. rewrite app_nil_r. destruct s.
        split; [reflexivity|]. split; [reflexivity|]. discriminate.
    + exists (Raise e), []. rewrite app_nil_r. destruct s.
      split; [reflexivity|]. split; [reflexivity|]. discriminate.
  - run_m. eexists _, [_]. split; [reflexivity|].
    split; [reflexivity|]. discriminate.
Qed.

Lemma connect_failed_events (w : world) (azure_ws : bool) (e : exn) (s : state) :
  exists es l,
    connect_failed w azure_ws e s = (Ok None, mkState (trace s ++ es) l) /\
    filter is_connect es = [] /\
    (closes es <= 1)%nat /\
    (azure_ws = false -> l = upstream s).
Proof.
  destruct e, azure_ws; unfold connect_failed; run_m; tidy;
    try (eexists _, _; split; [reflexivity|]; split; [reflexivity|];
         split; [cbv; auto using le_0_n | auto]; fail);
    destruct (w_close w); eexists _, _; (split; [reflexivity|]);
    (split; [reflexivity|]); (split; [cbv; auto | discriminate]).
Qed.

Ltac after_failure e :=
  match goal with
  | |- context [connect_failed ?w ?b e ?st] =>
      let es := fresh "es" in
      let l := fresh "l" in
      let Hrun := fresh "Hrun" in
      let Hes := fresh "Hes" in
      let Hcl := fresh "Hcl" in
      let Hl := fresh "Hl" in
      destruct (connect_failed_events w b e st) as (es & l & Hrun & Hes & Hcl & Hl);
      rewrite Hrun
  end.

(** The connector, call by call. *)
Lemma connect_full (w : world) (agent_id : option json) (s : state) :
  exists r s' r0 es1 es2,
    _connect_to_azure w agent_id s = (Ok r, s') /\
    prepare w agent_id s = (r0, mkState (trace s ++ es1) (upstream s)) /\
    forallb is_quiet es1 = true /\
    trace s' = (trace s ++ es1 ++ es2)%list /\
    (closes es2 <= 1)%nat /\
    match r0 with
    | Ok (Some (agent_config, url, h)) =>
        exists es', es2 = Connect url h :: es' /\ filter is_connect es' = [] /\
                    (r = Some tt ->
                     exists message,
                       es' = [SendConfig message] /\
                       initial_config (w_config w) agent_config = Ok message /\
                       upstream s' = Open)
    | _ => filter is_connect es2 = [] /\ r = None /\ upstream s' = upstream s
    end.
Proof.
  destruct (prepare_full w agent_id s) as (r0 & es1 & Hp & Hq & _).
  unfold _connect_to_azure. cbv [bindM try_catch]. rewrite Hp.
  destruct r0 as [[[[agent_config url] h]|]|e].
  - unfold ws_connect. run_m.
    destruct (w_connect w url h) as [[]|e] eqn:Hc.
    + unfold _send_initial_config. run_m.
      destruct (initial_config (w_config w) agent_config) as [message|e] eqn:Hi.
      * destruct (w_send_config w) as [[]|e] eqn:Hs.
        -- cbv [ret]. tidy.
           eexists (Some tt), _, _, es1, [Connect url h; SendConfig message].
           split; [reflexivity|]. split; [reflexivity|]. split; [exact Hq|].
           split; [reflexivity|]. split; [cbv; auto|].
           eexists. split; [reflexivity|]. split; [reflexivity|].
           intros _. exists message. auto.
        -- assert (Hgoal : forall (e0 : exn) (st : state),
                     trace st =
                       (trace s ++ es1 ++ [Connect url h; SendConfig message])%list ->
                     exists r s' es2,
                       connect_failed w true e0 st = (Ok r, s') /\
                       trace s' = (trace s ++ es1 ++ es2)%list /\
                       (closes es2 <= 1)%nat /\
                       exists es', es2 = Connect url h :: es' /\
                                   filter is_connect es' = [] /\ r = None).
           { intros e0 st Hst.
             destruct (connect_failed_events w true e0 st)
               as (es & l & Hrun & Hes & Hcl & _).
             rewrite Hrun.
             exists None, (mkState (trace st ++ es) l),
                    (Connect url h :: SendConfig message :: es).
             split; [reflexivity|].
             split; [cbn [trace]; rewrite Hst; now rewrite <- !app_assoc|].
             split; [exact Hcl|].
             eexists. split; [reflexivity|]. split; [exact Hes | reflexivity]. }
           run_m; tidy;
             match goal with
             | |- context [connect_failed w true ?e0 ?st] =>
                 destruct (Hgoal e0 st eq_refl)
                   as (r & s' & es2 & -> & Htr & Hcl & es' & Hes2 & Hf & ->)
             end;
             exists None, s', (Ok (Some (agent_config, url, h))), es1, es2;
             (split; [reflexivity|]); (split; [reflexivity|]);
             (split; [exact Hq|]); (split; [exact Htr|]); (split; [exact Hcl|]);
             exists es'; (split; [exact Hes2|]); (split; [exact Hf|]); discriminate.
      * tidy. after_failure e.
        eexists None, _, _, es1, (Connect url h :: es).
        split; [reflexivity|]. split; [reflexivity|]. split; [exact Hq|].
        split; [cbn [trace]; now rewrite <- !app_assoc|].
        split; [exact Hcl|].
        eexists. split; [reflexivity|]. split; [exact Hes|]. discriminate.
    + tidy. after_failure e.
      eexists None, _, _, es1, (Connect url h :: es).
      split; [reflexivity|]. split; [reflexivity|]. split; [exact Hq|].
      split; [cbn [trace]; now rewrite <- !app_assoc|].
      split; [exact Hcl|].
      eexists. split; [reflexivity|]. split; [exact Hes|]. discriminate.
  - eexists None, _, _, es1, []. split; [reflexivity|]. split; [reflexivity|].
    split; [exact Hq|]. split; [cbn [trace]; now rewrite app_nil_r|].
    split; [cbv; auto|]. auto.
  - after_failure e.
    eexists None, _, _, es1, es. split; [reflexivity|]. split; [reflexivity|].
    split; [exact Hq|]. split; [cbn [trace]; now rewrite <- !app_assoc|].
    split; [exact Hcl|]. split; [exact Hes|]. split; [reflexivity|].
    cbn [upstream]. now apply Hl.
Qed.

(** X11: one call of the connector makes at most one connection
    attempt, and only with the resource name configured, to the URL
    built for the agent it looked up, carrying the credential selected
    for that agent: a bearer token issued by the credential (primary
    scope first) for a remote agent, the configured static key
    otherwise. *)
Theorem X11_connect_attempts (w : world) (agent_id : option json) (s : state) :
  filter is_connect (trace s) = [] ->
  exists r s',
    _connect_to_azure w agent_id s = (Ok r, s') /\
    (filter is_connect (trace s') = [] \/
     exists agent_config url h,
       filter is_connect (trace s') = [Connect url h] /\
       configured (cfg_azure_ai_resource_name (w_config w)) = true /\
       lookup_agent w agent_id = Ok agent_config /\
       _build_azure_url (w_repr w) (w_config w) (w_uuid4 w) agent_id agent_config
       = Ok url /\
       credential_for w agent_config h).
Proof.
  intros Hs.
  destruct (connect_full w agent_id s)
    as (r & s' & r0 & es1 & es2 & Hrun & Hp & Hq & Htr & _ & Hcase).
  destruct (prepare_full w agent_id s) as (r0' & es1' & Hp' & _ & Hsome).
  rewrite Hp in Hp'. injection Hp' as <- _.
  exists r, s'. split; [exact Hrun|].
  rewrite Htr, !filter_app, Hs, (quiet_no_connect es1 Hq). cbn [app].
  destruct r0 as [[[[agent_config url] h]|]|e].
  - destruct Hcase as (es' & -> & Hes' & _).
    right. exists agent_config, url, h.
    cbn [filter is_connect]. rewrite Hes'.
    split; [reflexivity|]. now apply Hsome.
  - left. apply Hcase.
  - left. apply Hcase.
Qed.

Lemma X11_witness :
  exists r s',
    _connect_to_azure sample_world (Some (JStr "remote")) initial_state = (Ok r, s') /\
    (filter is_connect (trace s') = [] \/
     exists agent_config url h,
       filter is_connect (trace s') = [Connect url h] /\
       configured (cfg_azure_ai_resource_name (w_config sample_world)) = true /\
       lookup_agent sample_world (Some (JStr "remote")) = Ok agent_config /\
       _build_azure_url (w_repr sample_world) (w_config sample_world)
                        (w_uuid4 sample_world) (Some (JStr "remote")) agent_config
       = Ok url /\
       credential_for sample_world agent_config h).
Proof.
  exact (X11_connect_attempts sample_world (Some (JStr "remote")) initial_state
           eq_refl).
Defined.

Lemma local_flag (fields : list (string * json)) :
  is_local fields -> remote_flag (Some (JObj fields)) = Ok false.
Proof.
  intros [Hne Hl]. unfold remote_flag.
  rewrite (truthy_obj_nonempty fields Hne). cbn [Py.get bind].
  destruct (Py.assoc "is_azure_agent" fields); [now rewrite Hl | reflexivity].
Qed.

Lemma local_url (py_repr : json -> string) (cfg : config) (uuid : string)
      (agent_id : option json) (fields : list (string * json)) :
  is_local fields ->
  _build_azure_url py_repr cfg uuid agent_id (Some (JObj fields))
  = Ok (_build_base_azure_url cfg uuid ++ "&model="
          ++ py_str py_repr (model_of cfg fields)).
Proof.
  intros [Hne Hl]. unfold _build_azure_url.
  rewrite (truthy_obj_nonempty fields Hne).
  unfold _build_agent_specific_url, model_of. cbn [Py.get bind].
  destruct (Py.assoc "is_azure_agent" fields) as [flag|].
  - rewrite Hl. reflexivity.
  - reflexivity.
Qed.

(** X12: the initial configuration is built only after the connection
    is open.  For an agent that is not remote and whose configuration
    lacks instructions, temperature or max_tokens, the connector (static
    key configured, service accepting the connection) opens the upstream
    connection, sends nothing on it, closes it, and returns failure. *)
Theorem X12_incomplete_agent_connects_then_closes (w : world)
    (agent_id : option json) (fields : list (string * json)) (s : state) :
  configured (cfg_azure_ai_resource_name (w_config w)) = true ->
  configured (cfg_azure_openai_api_key (w_config w)) = true ->
  lookup_agent w agent_id = Ok (Some (JObj fields)) ->
  is_local fields ->
  initial_config (w_config w) (Some (JObj fields)) = Raise KeyError ->
  (forall url h, w_connect w url h = Ok tt) ->
  exists url,
    _connect_to_azure w agent_id s =
      (Ok None,
       mkState (trace s ++
                [Connect url (ApiKey (cfg_azure_openai_api_key (w_config w)));
                 LogError "Failed to connect to Azure: %s";
                 LogError "Exception type: %s";
                 UpstreamClose])
               Closed).
Proof.
  intros Hres Hkey Hlook Hlocal Hcfg Hconn.
  eexists.
  unfold _connect_to_azure, prepare. rewrite Hres. cbn [negb].
  cbv [bindM try_catch lift]. rewrite Hlook, (local_flag fields Hlocal).
  unfold select_headers. rewrite Hkey. cbn [negb]. cbv [ret].
  rewrite (local_url _ _ _ _ fields Hlocal).
  unfold ws_connect, _send_initial_config. run_m. rewrite Hconn, Hcfg.
  unfold connect_failed. run_m.
  destruct (w_close w); tidy; reflexivity.
Qed.

Lemma X12_witness :
  exists url,
    _connect_to_azure bare_world (Some (JStr "any")) initial_state =
      (Ok None,
       mkState [Connect url (ApiKey "secret-key");
                LogError "Failed to connect to Azure: %s";
                LogError "Exception type: %s";
                UpstreamClose]
               Closed).
Proof.
  assert (Hlocal : is_local bare_agent) by (split; [discriminate | exact I]).
  exact (X12_incomplete_agent_connects_then_closes bare_world (Some (JStr "any"))
           bare_agent initial_state eq_refl eq_refl eq_refl Hlocal eq_refl
           (fun _ _ => eq_refl)).
Defined.

(** ** The handler: what the client sees *)

Lemma closes_app (a b : list event) : closes (a ++ b) = (closes a + closes b)%nat.
Proof. unfold closes. now rewrite filter_app, length_app. Qed.

Lemma closes_to_upstream (ps : list payload) : closes (map ToUpstream ps) = 0%nat.
Proof. unfold closes. induction ps; [reflexivity | exact IHps]. Qed.

Lemma closes_to_client (ps : list payload) : closes (map ToClient ps) = 0%nat.
Proof. unfold closes. induction ps; [reflexivity | exact IHps]. Qed.

Lemma choose_agent_cases (w : world) (s : state) :
  exists r es,
    choose_agent w s = (r, mkState (trace s ++ es) (upstream s)) /\
    (es = [] \/ es = [CreateOrGetAgent]).
Proof.
  unfold choose_agent.
  destruct (configured (cfg_agent_id (w_config w))).
  - run_m. destruct (w_create_or_get_agent w); cbv [ret];
      eexists _, [CreateOrGetAgent]; split; auto.
  - cbv [lift]. eexists _, []. rewrite app_nil_r. destruct s. split; auto.
Qed.

(** The run of the handler once the connector has returned a connection. *)
Lemma handler_after_connect (w : world) (agent_id : option json)
    (s0 s1 : state) :
  choose_agent w initial_state = (Ok agent_id, s0) ->
  _connect_to_azure w agent_id s0 = (Ok (Some tt), s1) ->
  let final :=
    (trace s1 ++
     ClientSend proxy_connected ::
     map ToUpstream (_forward_client_to_azure (w_client_turns w)) ++
     map ToClient (_forward_azure_to_client (w_dumps w) (w_hash w)
                                            (w_upstream_turns w)) ++
     [UpstreamClose])%list in
  handle_connection w initial_state = (w_close w, mkState final Closed) /\
  closes final = 1%nat.
Proof.
  intros Hchoose Hconn. cbv zeta. split.
  - unfold handle_connection. cbv [bindM attempt]. rewrite Hchoose, Hconn.
    unfold _handle_message_forwarding, _send_message, ws_close.
    cbv [bindM try_catch emit set_link lift].
    rewrite !emit_all_run. cbn [trace upstream].
    rewrite <- !app_assoc. cbn [app].
    destruct (w_close w) as [[]|e]; reflexivity.
  - destruct (choose_agent_cases w initial_state) as (r & es0 & Hc & Hes0).
    rewrite Hchoose in Hc. injection Hc as _ ->.
    cbn [initial_state trace upstream app] in Hconn.
    destruct (connect_full w agent_id (mkState es0 NotOpened))
      as (r' & s' & r0 & es1 & es2 & Hrun & _ & Hq & Htr & _ & Hcase).
    rewrite Hconn in Hrun. injection Hrun as <- <-.
    cbn [trace] in Htr.
    assert (Hes2 : closes es2 = 0%nat).
    { destruct r0 as [[[[agent_config url] h]|]|e].
      - destruct Hcase as (es' & -> & _ & Hsome).
        destruct (Hsome eq_refl) as (message & -> & _). reflexivity.
      - destruct Hcase as (_ & Hr & _). discriminate Hr.
      - destruct Hcase as (_ & Hr & _). discriminate Hr. }
    rewrite Htr.
    change (ClientSend proxy_connected ::
            map ToUpstream (_forward_client_to_azure (w_client_turns w)) ++
            map ToClient (_forward_azure_to_client (w_dumps w) (w_hash w)
                                                   (w_upstream_turns w)) ++
            [UpstreamClose])%list
      with ([ClientSend proxy_connected] ++
            map ToUpstream (_forward_client_to_azure (w_client_turns w)) ++
            map ToClient (_forward_azure_to_client (w_dumps w) (w_hash w)
                                                   (w_upstream_turns w)) ++
            [UpstreamClose])%list.
    rewrite !closes_app, Hes2, (quiet_no_close es1 Hq),
      closes_to_upstream, closes_to_client.
    destruct Hes0 as [-> | ->]; reflexivity.
Qed.

(** X13: once the connector has returned a connection, the handler
    tells the client [proxy.connected], runs the two loops, and calls
    [close] on the upstream connection, its last call and the only
    [close] of the whole run, whatever the loops did; what [close]
    returns or raises is what the handler returns or raises. *)
Theorem X13_handler_after_connect (w : world) (agent_id : option json)
    (s0 s1 : state) :
  choose_agent w initial_state = (Ok agent_id, s0) ->
  _connect_to_azure w agent_id s0 = (Ok (Some tt), s1) ->
  let final :=
    (trace s1 ++
     ClientSend proxy_connected ::
     map ToUpstream (_forward_client_to_azure (w_client_turns w)) ++
     map ToClient (_forward_azure_to_client (w_dumps w) (w_hash w)
                                            (w_upstream_turns w)) ++
     [UpstreamClose])%list in
  handle_connection w initial_state = (w_close w, mkState final Closed) /\
  closes final = 1%nat.
Proof.
  exact (handler_after_connect w agent_id s0 s1).
Qed.

Lemma X13_witness :
  handle_connection busy_world initial_state =
    (Ok tt,
     mkState
       [Connect ("wss://my-resource.cognitiveservices.azure.com/voice-agent/realtime"
                   ++ "?api-version=2025-05-01-preview"
                   ++ "&x-ms-client-request-id=6f1c2a34-0000-4000-8000-000000000001"
                   ++ "&model=m")
                (ApiKey "secret-key");
        SendConfig (JObj [("type", JStr "session.update");
                          ("session",
                           JObj (default_session sample_config ++
                                 [("model", JStr "m");
                                  ("instructions", JStr "i");
                                  ("temperature", JFloat "0.5");
                                  ("max_response_output_tokens", JInt 100)]))]);
        ClientSend proxy_connected;
        ToUpstream (Dumps (JObj [("type", JStr "session.update");
                                 ("session", JObj [("voice", JStr "v")])]));
        ToUpstream (Verbatim (raw append_frame));
        ToClient (Verbatim (raw (updated_frame "a")));
        ToClient (Verbatim (raw delta_frame));
        UpstreamClose]
       Closed).
Proof.
  assert (Hchoose : choose_agent busy_world initial_state
                    = (Ok (Some (JStr "local")), initial_state)) by reflexivity.
  assert (Hconn : exists s1,
             _connect_to_azure busy_world (Some (JStr "local")) initial_state
             = (Ok (Some tt), s1)) by (eexists; reflexivity).
  destruct Hconn as [s1 Hconn].
  destruct (X13_handler_after_connect busy_world (Some (JStr "local"))
              initial_state s1 Hchoose Hconn) as [Hrun _].
  reflexivity.
Defined.

(** The run of the handler once the connector has returned failure. *)
Lemma handler_after_failed_connect (w : world) (agent_id : option json)
    (s0 s1 : state) :
  choose_agent w initial_state = (Ok agent_id, s0) ->
  _connect_to_azure w agent_id s0 = (Ok None, s1) ->
  handle_connection w initial_state =
    (Ok tt,
     mkState (trace s1 ++
              [ClientSend (error_frame "Failed to connect to Azure Voice API")])
             (upstream s1)) /\
  (closes (trace s1) <= 1)%nat.
Proof.
  intros Hchoose Hconn. split.
  - unfold handle_connection. cbv [bindM attempt]. rewrite Hchoose, Hconn.
    reflexivity.
  - destruct (choose_agent_cases w initial_state) as (r & es0 & Hc & Hes0).
    rewrite Hchoose in Hc. injection Hc as _ ->.
    cbn [initial_state trace upstream app] in Hconn.
    destruct (connect_full w agent_id (mkState es0 NotOpened))
      as (r' & s' & r0 & es1 & es2 & Hrun & _ & Hq & Htr & Hcl & _).
    rewrite Hconn in Hrun. injection Hrun as <- <-.
    cbn [trace] in Htr.
    rewrite Htr.
    rewrite !closes_app, (quiet_no_close es1 Hq).
    destruct Hes0 as [-> | ->]; exact Hcl.
Qed.

(** X14: when the connector returns failure, the handler sends the
    client one error frame, "Failed to connect to Azure Voice API", as
    its last call, and returns normally: no [proxy.connected], no frame
    forwarded in either direction whatever the two sides would send, and
    no [close] of its own. *)
Theorem X14_handler_after_failed_connect (w : world) (agent_id : option json)
    (s0 s1 : state) :
  choose_agent w initial_state = (Ok agent_id, s0) ->
  _connect_to_azure w agent_id s0 = (Ok None, s1) ->
  handle_connection w initial_state =
    (Ok tt,
     mkState (trace s1 ++
              [ClientSend (error_frame "Failed to connect to Azure Voice API")])
             (upstream s1)) /\
  (closes (trace s1) <= 1)%nat.
Proof.
  exact (handler_after_failed_connect w agent_id s0 s1).
Qed.

Lemma X14_witness :
  handle_connection (with_config busy_world resourceless_config) initial_state =
    (Ok tt,
     mkState [LogError "Missing required configuration: %s";
              ClientSend (error_frame "Failed to connect to Azure Voice API")]
             NotOpened).
Proof.
  assert (Hchoose : choose_agent (with_config busy_world resourceless_config)
                                 initial_state
                    = (Ok (Some (JStr "local")), initial_state)) by reflexivity.
  assert (Hconn : _connect_to_azure (with_config busy_world resourceless_config)
                                    (Some (JStr "local")) initial_state
                  = (Ok None,
                     mkState [LogError "Missing required configuration: %s"]
                             NotOpened)) by reflexivity.
  exact (proj1 (X14_handler_after_failed_connect
                  (with_config busy_world resourceless_config)
                  (Some (JStr "local")) initial_state _ Hchoose Hconn)).
Defined.

(** X15: as long as the agent set-up of the fixed-agent path (when a
    fixed agent identifier is configured) and [close] do not raise, the
    handler returns normally whatever else fails, calls [close] on the
    upstream connection at most once, and tells the client either
    [proxy.connected] or that the connection failed. *)
Theorem X15_handler_returns (w : world) :
  w_close w = Ok tt ->
  (configured (cfg_agent_id (w_config w)) = true -> w_create_or_get_agent w = Ok tt) ->
  exists s',
    handle_connection w initial_state = (Ok tt, s') /\
    (closes (trace s') <= 1)%nat /\
    (In (ClientSend proxy_connected) (trace s') \/
     In (ClientSend (error_frame "Failed to connect to Azure Voice API")) (trace s')).
Proof.
  intros Hclose Hsetup.
  assert (Hchoose : exists agent_id s0,
             choose_agent w initial_state = (Ok agent_id, s0)).
  { unfold choose_agent.
    destruct (configured (cfg_agent_id (w_config w))) eqn:Hid.
    - run_m. rewrite (Hsetup eq_refl). cbv [ret]. eauto.
    - destruct (identification_returns (w_first w)) as [o Ho].
      cbv [lift]. rewrite Ho. eauto. }
  destruct Hchoose as (agent_id & s0 & Hchoose).
  destruct (connect_full w agent_id s0) as (r & s1 & _ & _ & _ & Hconn & _).
  destruct r as [[]|].
  - destruct (handler_after_connect w agent_id s0 s1 Hchoose Hconn) as [Hrun Hcl].
    rewrite Hclose in Hrun.
    eexists. split; [exact Hrun|]. cbn [trace].
    split; [rewrite Hcl; apply le_n|].
    left. apply in_or_app. right. now left.
  - destruct (handler_after_failed_connect w agent_id s0 s1 Hchoose Hconn)
      as [Hrun Hcl].
    eexists. split; [exact Hrun|]. cbn [trace].
    split.
    + rewrite closes_app. cbn. now rewrite Nat.add_0_r.
    + right. apply in_or_app. right. now left.
Qed.

Lemma X15_witness :
  exists s',
    handle_connection busy_world initial_state = (Ok tt, s') /\
    (closes (trace s') <= 1)%nat /\
    (In (ClientSend proxy_connected) (trace s') \/
     In (ClientSend (error_frame "Failed to connect to Azure Voice API")) (trace s')).
Proof.
  assert (Hsetup : configured (cfg_agent_id (w_config busy_world)) = true ->
                   w_create_or_get_agent busy_world = Ok tt)
    by (intros _; reflexivity).
  exact (X15_handler_returns busy_world eq_refl Hsetup).
Defined.

(** ** Upstream URL: no failing lookups *)

Lemma append_assoc (a b c : string) : ((a ++ b) ++ c = a ++ b ++ c)%string.
Proof. induction a as [|x a IH]; simpl; [reflexivity | now rewrite IH]. Qed.

(** X16: building the URL never fails when the agent configuration is
    absent or a JSON object, whatever entries it has or lacks (the
    builder only uses lookups with a default): the URL is the common
    base followed by an agent-id parameter or by a model parameter. *)
Theorem X16_url_never_fails (py_repr : json -> string) (cfg : config)
    (client_request_id : string) (agent_id agent_config : option json) :
  agent_config = None \/ (exists fields, agent_config = Some (JObj fields)) ->
  exists rest,
    _build_azure_url py_repr cfg client_request_id agent_id agent_config
    = Ok (_build_base_azure_url cfg client_request_id ++ "&agent-id=" ++ rest) \/
    _build_azure_url py_repr cfg client_request_id agent_id agent_config
    = Ok (_build_base_azure_url cfg client_request_id ++ "&model=" ++ rest).
Proof.
  intros Hshape. unfold _build_azure_url.
  assert (Hdefault : exists rest,
             (if configured (cfg_agent_id cfg)
              then Ok (_build_base_azure_url cfg client_request_id
                         ++ "&agent-id=" ++ cfg_agent_id cfg)
              else Ok (_build_base_azure_url cfg client_request_id
                         ++ "&model=" ++ cfg_model_deployment_name cfg))
             = Ok (_build_base_azure_url cfg client_request_id ++ "&agent-id=" ++ rest) \/
             (if configured (cfg_agent_id cfg)
              then Ok (_build_base_azure_url cfg client_request_id
                         ++ "&agent-id=" ++ cfg_agent_id cfg)
              else Ok (_build_base_azure_url cfg client_request_id
                         ++ "&model=" ++ cfg_model_deployment_name cfg))
             = Ok (_build_base_azure_url cfg client_request_id ++ "&model=" ++ rest)).
  { destruct (configured (cfg_agent_id cfg)); eauto. }
  destruct Hshape as [-> | [fields ->]]; [exact Hdefault|].
  destruct (Py.truthy (JObj fields)); [|exact Hdefault].
  unfold _build_agent_specific_url. cbn [Py.get bind].
  destruct (Py.truthy _).
  - destruct (configured (cfg_project_endpoint cfg)).
    + eexists. left. f_equal.
      rewrite append_assoc. reflexivity.
    + eexists. left. reflexivity.
  - eexists. right. reflexivity.
Qed.

Lemma X16_witness :
  exists rest,
    _build_azure_url (fun _ => "?") sample_config "trace-1" None
                     (Some (JObj bare_agent))
    = Ok (_build_base_azure_url sample_config "trace-1" ++ "&agent-id=" ++ rest) \/
    _build_azure_url (fun _ => "?") sample_config "trace-1" None
                     (Some (JObj bare_agent))
    = Ok (_build_base_azure_url sample_config "trace-1" ++ "&model=" ++ rest).
Proof.
  assert (Hshape : Some (JObj bare_agent) = None \/
                   exists fields, Some (JObj bare_agent) = Some (JObj fields))
    by (right; eexists; reflexivity).
  exact (X16_url_never_fails (fun _ => "?") sample_config "trace-1" None
           (Some (JObj bare_agent)) Hshape).
Defined.
